(** * Open Graph card generator: a shallow embedding of
    [assets/generate_og_image.py] and the properties of its two outputs.

    The script draws one fixed card twice: through matplotlib's pyplot
    interface (raster, [og-image.png]) and as a literal SVG document
    (vector, [og-image.svg]).  The embedding keeps the script's shape:

    - Python floats are IEEE binary64 values ([PrimFloat]); the same program
      text is also read over exact rationals, so that statements such as
      "two units apart" can be told apart from their rounded counterparts;
    - module globals ([HAS_MATPLOTLIB], [OUTPUT_DIR], [COLORS]) are a record
      passed to every function; [COLORS] is a dictionary with string keys;
    - the effects of a run -- files written, lines printed, pyplot's current
      figure, uncaught exceptions -- are threaded through a state and error
      monad;
    - a Python [str] is a sequence of code points and a file holds bytes:
      the vector file is opened in text mode with no [encoding] argument, so
      what reaches the disk is the text under the platform's line separator
      and locale encoding, and the write fails where that encoding lacks a
      character of the text;
    - matplotlib is a library, not part of the script: a drawing call is
      recorded with the arguments the script passes, and the PNG file holds
      the recorded figure together with the [savefig] options;
    - the SVG text is data of the script and is parsed by a small XML
      reader defined here.  *)

From Stdlib Require Import ZArith QArith Qabs Lqa Floats.PrimFloat Floats.FloatOps Floats.SpecFloat.
From Stdlib Require Import Uint63 Ascii String List Lia.
From stdpp Require Import base option list gmap strings.
Import ListNotations.

Local Open Scope string_scope.
Local Open Scope list_scope.

(** ** Numbers *)

(** The arithmetic the script uses, abstracted over the carrier.  [lit q] is
    a decimal literal of the program text, [of_int] the implicit conversion
    of a Python [int] operand in mixed arithmetic. *)
Class Number (F : Type) := {
  lit : Q -> F;
  of_int : Z -> F;
  fadd : F -> F -> F;
  fsub : F -> F -> F;
  fmul : F -> F -> F;
  fdiv : F -> F -> F;
  fltb : F -> F -> bool;
  fleb : F -> F -> bool;
  feqb : F -> F -> bool
}.
Arguments lit {F _} _%_Q.

Declare Scope num_scope.
Delimit Scope num_scope with num.
Infix "+" := fadd : num_scope.
Infix "-" := fsub : num_scope.
Infix "*" := fmul : num_scope.
Infix "/" := fdiv : num_scope.

(** Conversion of an integer to binary64; exact below 2^53 in magnitude,
    which covers every integer of the script. *)
Definition float_of_Z (z : Z) : float :=
  if (z <? 0)%Z then PrimFloat.opp (of_uint63 (Uint63.of_Z (- z)))
  else of_uint63 (Uint63.of_Z z).

(** A decimal literal [n/d] (with [n] and [d] exact in binary64) denotes the
    binary64 value nearest to it, which is what correctly rounded division
    returns. *)
Definition float_of_Q (q : Q) : float :=
  PrimFloat.div (float_of_Z (Qnum q)) (float_of_Z (Zpos (Qden q))).

(** What CPython computes. *)
#[export] Instance binary64 : Number float := {|
  lit := float_of_Q;
  of_int := float_of_Z;
  fadd := PrimFloat.add;
  fsub := PrimFloat.sub;
  fmul := PrimFloat.mul;
  fdiv := PrimFloat.div;
  fltb := PrimFloat.ltb;
  fleb := PrimFloat.leb;
  feqb := PrimFloat.eqb
|}.

(** The rational number a finite binary64 value stands for, without loss. *)
Definition Q_of_float (x : float) : Q :=
  match Prim2SF x with
  | S754_finite s m e =>
      let v := if (0 <=? e)%Z then inject_Z (Zpos m * 2 ^ e)
               else Zpos m # Pos.pow 2 (Z.to_pos (- e)) in
      if s then Qopp v else v
  | _ => 0
  end.

(** The same operations without rounding. *)
#[export] Instance exact : Number Q := {|
  lit q := q;
  of_int := inject_Z;
  fadd := Qplus;
  fsub := Qminus;
  fmul := Qmult;
  fdiv := Qdiv;
  fltb a b := match Qcompare a b with Lt => true | _ => false end;
  fleb := Qle_bool;
  feqb := Qeq_bool
|}.

(** ** Python values shared by both renderers *)

(** [pathlib.Path] as its list of components; [/] appends one.  A path
    stands for the file it names: two spellings of one file (through [..]
    or a link) are not told apart. *)
Definition path := list string.

Definition path_join (d : path) (name : string) : path := d ++ [name].

Definition path_str (p : path) : string := String.concat "/" p.

Inductive exn :=
| KeyError (key : string)
| ImportError (module_name : string)
| UnicodeEncodeError.

(** [range(n)] and [enumerate]. *)
Definition range (n : nat) : list Z := map Z.of_nat (seq 0 n).

Definition enumerate {A} (l : list A) : list (Z * A) := zip (range (length l)) l.

Definition newline : string := String (ascii_of_nat 10) EmptyString.

(** ** Text and bytes *)

(** A Python [str]: its code points. *)
Definition str := list N.

Definition byte_values (s : string) : list N := map N_of_ascii (list_ascii_of_string s).

Definition byte_string (l : list N) : string := string_of_list_ascii (map ascii_of_N l).

(** The script is a UTF-8 file, Python's default for source code: the
    characters of a string literal are decoded from the bytes between its
    quotes.  (A byte that starts no well-formed sequence is kept as it is;
    the script has none.) *)
Fixpoint utf8_decode (l : list N) : str :=
  match l with
  | [] => []
  | b :: l1 =>
      if (b <? 192)%N then b :: utf8_decode l1
      else if (b <? 224)%N then
        match l1 with
        | b1 :: l2 => ((b - 192) * 64 + (b1 - 128))%N :: utf8_decode l2
        | _ => b :: utf8_decode l1
        end
      else if (b <? 240)%N then
        match l1 with
        | b1 :: b2 :: l3 =>
            ((b - 224) * 4096 + (b1 - 128) * 64 + (b2 - 128))%N :: utf8_decode l3
        | _ => b :: utf8_decode l1
        end
      else
        match l1 with
        | b1 :: b2 :: b3 :: l4 =>
            ((b - 240) * 262144 + (b1 - 128) * 4096 + (b2 - 128) * 64 + (b3 - 128))%N
            :: utf8_decode l4
        | _ => b :: utf8_decode l1
        end
  end.

Definition characters (literal : string) : str := utf8_decode (byte_values literal).

(** A codec with the error handler ['strict']: the bytes of a text, or no
    result where [str.encode] raises [UnicodeEncodeError]. *)
Definition codec := str -> option string.

(** A codec that encodes character by character. *)
Definition encode_each (f : N -> option (list N)) : codec :=
  fun t => (fun bs => byte_string (concat bs)) <$> mapM f t.

(** ['utf-8']: every code point but the surrogates. *)
Definition utf_8 : codec :=
  encode_each (fun c =>
    if (c <? 128)%N then Some [c]
    else if (c <? 2048)%N then Some [192 + c / 64; 128 + c mod 64]%N
    else if (55296 <=? c)%N && (c <=? 57343)%N then None
    else if (c <? 65536)%N then
      Some [224 + c / 4096; 128 + c / 64 mod 64; 128 + c mod 64]%N
    else if (c <? 1114112)%N then
      Some [240 + c / 262144; 128 + c / 4096 mod 64; 128 + c / 64 mod 64; 128 + c mod 64]%N
    else None).

(** ['ascii'], the encoding of the C locale. *)
Definition ascii_codec : codec :=
  encode_each (fun c => if (c <? 128)%N then Some [c] else None).

(** ['latin-1']. *)
Definition latin_1 : codec :=
  encode_each (fun c => if (c <? 256)%N then Some [c] else None).

(** The characters ['cp1252'] places at bytes 128 to 159. *)
Definition cp1252_high : list (N * N) :=
  [(8364, 128); (8218, 130); (402, 131); (8222, 132); (8230, 133); (8224, 134);
   (8225, 135); (710, 136); (8240, 137); (352, 138); (8249, 139); (338, 140);
   (381, 142); (8216, 145); (8217, 146); (8220, 147); (8221, 148); (8226, 149);
   (8211, 150); (8212, 151); (732, 152); (8482, 153); (353, 154); (8250, 155);
   (339, 156); (382, 158); (376, 159)]%N.

(** ['cp1252'], the ANSI code page of Western European Windows. *)
Definition cp1252 : codec :=
  encode_each (fun c =>
    if (c <? 128)%N || ((160 <=? c)%N && (c <? 256)%N) then Some [c]
    else (fun e => [snd e]) <$> List.find (fun e => (fst e =? c)%N) cp1252_high).

(** What [open] takes from the platform when it is given neither
    [encoding] nor [newline]: the locale's encoding and [os.linesep]. *)
Record Platform := {
  locale_encoding : codec;
  linesep : string
}.

(** Text mode on output: every line feed becomes the line separator. *)
Definition translate_newlines (sep : str) (t : str) : str :=
  flat_map (fun c => if (c =? 10)%N then sep else [c]) t.

(** The bytes a text-mode file of the platform receives for a text. *)
Definition text_bytes (pf : Platform) (t : str) : option string :=
  locale_encoding pf (translate_newlines (characters (linesep pf)) t).

Definition carriage_return : string := String (ascii_of_nat 13) EmptyString.

(** Linux or macOS with a UTF-8 locale. *)
Definition posix_utf8 : Platform := {| locale_encoding := utf_8; linesep := newline |}.

(** Linux in the C locale, as older interpreters read it. *)
Definition posix_ascii : Platform := {| locale_encoding := ascii_codec; linesep := newline |}.

(** Windows with its Western European code page. *)
Definition windows_cp1252 : Platform :=
  {| locale_encoding := cp1252; linesep := carriage_return ++ newline |}.

(** Windows with Python's UTF-8 mode on. *)
Definition windows_utf8 : Platform :=
  {| locale_encoding := utf_8; linesep := carriage_return ++ newline |}.

(** The module-level dictionary (lines 22-31). *)
Definition COLORS_literal : gmap string string :=
  <["primary" := "#2E86AB"]>
  (<["primary_dark" := "#1a5a7a"]>
  (<["accent" := "#F18F01"]>
  (<["success" := "#28A745"]>
  (<["warning" := "#DC3545"]>
  (<["dark" := "#1a1a1a"]>
  (<["light" := "#f5f5f5"]>
  (<["white" := "#ffffff"]> ∅))))))).

(** Module globals read by the functions. *)
Record Globals := {
  HAS_MATPLOTLIB : bool;
  OUTPUT_DIR : path;
  COLORS : gmap string string
}.

(** ** The recorded matplotlib interface *)

Section Matplotlib.
Context {F : Type} `{Number F}.

(** Keyword arguments of [Axes.text]. *)
Record TextProps := {
  fontsize : Z;
  fontweight : option string;
  color : string;
  ha : string;
  va : string;
  fontfamily : string;
  text_alpha : option F
}.

(** What the script adds to the axes, in the order of the calls. *)
Inductive Artist :=
| Rectangle (xy : F * F) (width height : F) (facecolor : string) (alpha : F)
| FancyBboxPatch (xy : F * F) (width height : F) (boxstyle : string)
    (facecolor edgecolor : string) (alpha : F)
| Text (x y : F) (s : string) (props : TextProps)
| FillBetween (x y1 y2 : list F) (fill_color : string) (alpha : F)
| Line2D (x y : list F) (line_color : string) (linewidth : Z).

(** The figure and its single axes; [None] is a property never set. *)
Record Figure := {
  figsize : F * F;
  fig_dpi : Z;
  fig_facecolor : option string;
  ax_facecolor : option string;
  xlim : option (F * F);
  ylim : option (F * F);
  axis_on : bool;
  artists : list Artist;
  tight_layout_pad : option Z
}.

(** Keyword arguments of [Figure.savefig]. *)
Record SaveOpts := {
  save_dpi : Z;
  save_facecolor : string;
  bbox_inches : string;
  pad_inches : Z
}.

(** A file holds the bytes written to it, or the PNG encoding matplotlib
    makes of a figure under the given options. *)
Inductive file_content :=
| FileBytes (b : string)
| PngImage (fig : Figure) (opts : SaveOpts).

(** ** Effects *)

(** The files (every path of the map can be opened for writing), the lines
    printed so far, pyplot's current figure, and the platform the interpreter
    runs on, which no call changes. *)
Record World := {
  files : gmap path file_content;
  stdout : list string;
  gcf : option Figure;
  platform : Platform
}.

(** A computation ends normally with a value or with an uncaught exception;
    what it did before either is kept. *)
Definition IO (A : Type) : Type := World -> (exn + A) * World.

Definition ret {A} (a : A) : IO A := fun w => (inr a, w).

Definition raise {A} (e : exn) : IO A := fun w => (inl e, w).

Definition bind {A B} (c : IO A) (k : A -> IO B) : IO B :=
  fun w =>
    match c w with
    | (inl e, w') => (inl e, w')
    | (inr a, w') => k a w'
    end.

(** [print(s)]; writing a line to the standard output is taken to
    succeed. *)
Definition print (s : string) : IO unit :=
  fun w =>
    (inr tt,
     {| files := files w; stdout := stdout w ++ [s]; gcf := gcf w; platform := platform w |}).

(** The file at [p] now holds [c], whether or not it existed. *)
Definition write_file (p : path) (c : file_content) : IO unit :=
  fun w =>
    (inr tt,
     {| files := <[p := c]> (files w); stdout := stdout w; gcf := gcf w;
        platform := platform w |}).

(** [open(p, 'w')]: the file is created, or emptied if it exists. *)
Definition open_for_writing (p : path) : IO unit := write_file p (FileBytes "").

(** [f.write(text)] on the text file just opened at [p], then the end of
    the [with] block: the text is encoded when it is written, so either all
    of its bytes reach the file or [UnicodeEncodeError] is raised and the
    file stays as it was opened. *)
Definition write_text (p : path) (text : str) : IO unit :=
  fun w =>
    match text_bytes (platform w) text with
    | Some b => write_file p (FileBytes b) w
    | None => raise UnicodeEncodeError w
    end.

(** [d[k]] on a dictionary. *)
Definition getitem (d : gmap string string) (k : string) : IO string :=
  match d !! k with
  | Some v => ret v
  | None => raise (KeyError k)
  end.

(** [for x in l: body]. *)
Fixpoint for_each {A} (l : list A) (body : A -> IO unit) : IO unit :=
  match l with
  | [] => ret tt
  | x :: l' => bind (body x) (fun _ => for_each l' body)
  end.

(** [plt.subplots(figsize=..., dpi=...)]: a new current figure. *)
Definition subplots (size : F * F) (dpi : Z) : IO unit :=
  fun w =>
    (inr tt,
     {| files := files w; stdout := stdout w;
        gcf := Some {| figsize := size; fig_dpi := dpi; fig_facecolor := None;
                       ax_facecolor := None; xlim := None; ylim := None;
                       axis_on := true; artists := []; tight_layout_pad := None |};
        platform := platform w |}).

(** A method call on [fig] or [ax] updates the current figure.  (The
    script holds [fig] and [ax] only after [plt.subplots], so the case of no
    current figure is never reached; there the call does nothing.)

    Colours are recorded as the strings the script passes.  matplotlib checks
    each of them and raises [ValueError] for a string that names no colour;
    the recorded calls are therefore those of the library only where the
    dictionary holds colours, as the script's does. *)
Definition on_figure (f : Figure -> Figure) : IO unit :=
  fun w =>
    (inr tt,
     {| files := files w; stdout := stdout w; gcf := f <$> gcf w; platform := platform w |}).

Definition set_fig_facecolor (c : string) : IO unit :=
  on_figure (fun fg =>
    {| figsize := figsize fg; fig_dpi := fig_dpi fg; fig_facecolor := Some c;
       ax_facecolor := ax_facecolor fg; xlim := xlim fg; ylim := ylim fg;
       axis_on := axis_on fg; artists := artists fg;
       tight_layout_pad := tight_layout_pad fg |}).

Definition set_ax_facecolor (c : string) : IO unit :=
  on_figure (fun fg =>
    {| figsize := figsize fg; fig_dpi := fig_dpi fg; fig_facecolor := fig_facecolor fg;
       ax_facecolor := Some c; xlim := xlim fg; ylim := ylim fg;
       axis_on := axis_on fg; artists := artists fg;
       tight_layout_pad := tight_layout_pad fg |}).

Definition set_xlim (lo hi : F) : IO unit :=
  on_figure (fun fg =>
    {| figsize := figsize fg; fig_dpi := fig_dpi fg; fig_facecolor := fig_facecolor fg;
       ax_facecolor := ax_facecolor fg; xlim := Some (lo, hi); ylim := ylim fg;
       axis_on := axis_on fg; artists := artists fg;
       tight_layout_pad := tight_layout_pad fg |}).

Definition set_ylim (lo hi : F) : IO unit :=
  on_figure (fun fg =>
    {| figsize := figsize fg; fig_dpi := fig_dpi fg; fig_facecolor := fig_facecolor fg;
       ax_facecolor := ax_facecolor fg; xlim := xlim fg; ylim := Some (lo, hi);
       axis_on := axis_on fg; artists := artists fg;
       tight_layout_pad := tight_layout_pad fg |}).

Definition axis_off : IO unit :=
  on_figure (fun fg =>
    {| figsize := figsize fg; fig_dpi := fig_dpi fg; fig_facecolor := fig_facecolor fg;
       ax_facecolor := ax_facecolor fg; xlim := xlim fg; ylim := ylim fg;
       axis_on := false; artists := artists fg;
       tight_layout_pad := tight_layout_pad fg |}).

(** The figure with further artists on top. *)
Definition with_more (l : list Artist) (fg : Figure) : Figure :=
  {| figsize := figsize fg; fig_dpi := fig_dpi fg; fig_facecolor := fig_facecolor fg;
     ax_facecolor := ax_facecolor fg; xlim := xlim fg; ylim := ylim fg;
     axis_on := axis_on fg; artists := artists fg ++ l;
     tight_layout_pad := tight_layout_pad fg |}.

(** [ax.add_patch], [ax.text], [ax.fill_between] and [ax.plot] all append. *)
Definition add_artist (a : Artist) : IO unit := on_figure (with_more [a]).

Definition tight_layout (pad : Z) : IO unit :=
  on_figure (fun fg =>
    {| figsize := figsize fg; fig_dpi := fig_dpi fg; fig_facecolor := fig_facecolor fg;
       ax_facecolor := ax_facecolor fg; xlim := xlim fg; ylim := ylim fg;
       axis_on := axis_on fg; artists := artists fg;
       tight_layout_pad := Some pad |}).

(** [fig.savefig(p, ...)]: the file receives the encoding of the figure as
    it stands (and nothing is written where there is no figure, which the
    script never reaches). *)
Definition savefig (p : path) (o : SaveOpts) : IO unit :=
  fun w =>
    match gcf w with
    | Some fg => write_file p (PngImage fg o) w
    | None => (inr tt, w)
    end.

(** [plt.close()]. *)
Definition close : IO unit :=
  fun w =>
    (inr tt, {| files := files w; stdout := stdout w; gcf := None; platform := platform w |}).

(** [np.linspace(start, stop, num)] with the end point included, as numpy
    computes it: both ends are converted to floats, then [i * step + start]
    for each index, where [step] is [(stop - start) / (num - 1)], the last
    sample then overwritten by [stop] (with fewer than two samples there is
    no step and nothing is overwritten). *)
Definition linspace (start stop : Z) (num : nat) : list F :=
  let delta := (of_int stop - of_int start)%num in
  let div := (Z.of_nat num - 1)%Z in
  if (0 <? div)%Z then
    let step := (delta / of_int div)%num in
    map (fun i => if (i =? div)%Z then of_int stop
                  else (of_int i * step + of_int start)%num)
        (range num)
  else map (fun i => (of_int i * delta + of_int start)%num) (range num).

End Matplotlib.

Arguments TextProps : clear implicits.
Arguments Artist : clear implicits.
Arguments Figure : clear implicits.
Arguments file_content : clear implicits.
Arguments World : clear implicits.
Arguments IO : clear implicits.

Declare Scope io_scope.
Delimit Scope io_scope with io.
Notation "x <- c ;; k" := (bind c (fun x => k))
  (at level 100, c at next level, k at level 200, right associativity) : io_scope.
Notation "c ;; k" := (bind c (fun _ => k))
  (at level 100, k at level 200, right associativity) : io_scope.

(** ** The vector card *)

Definition apostrophe : ascii := ascii_of_nat 39.

Definition double_quote : ascii := ascii_of_nat 34.

(** Every apostrophe becomes a double quote. *)
Fixpoint double_quoted (s : string) : string :=
  match s with
  | EmptyString => EmptyString
  | String c s' =>
      String (if Ascii.eqb c apostrophe then double_quote else c) (double_quoted s')
  end.

(** The text between the triple quotes at lines 136-208, with each double
    quote of the script written here as an apostrophe (the script's text has
    no apostrophe of its own).  Characters outside ASCII stand as their
    UTF-8 bytes. *)
Definition svg_template : string :=
"<?xml version='1.0' encoding='UTF-8'?>
<svg width='1200' height='630' xmlns='http://www.w3.org/2000/svg'>
  <defs>
    <linearGradient id='bg-gradient' x1='0%' y1='0%' x2='100%' y2='100%'>
      <stop offset='0%' style='stop-color:#1a1a1a;stop-opacity:1' />
      <stop offset='100%' style='stop-color:#2d2d2d;stop-opacity:1' />
    </linearGradient>
    <linearGradient id='accent-gradient' x1='0%' y1='0%' x2='100%' y2='0%'>
      <stop offset='0%' style='stop-color:#2E86AB;stop-opacity:1' />
      <stop offset='100%' style='stop-color:#1a5a7a;stop-opacity:1' />
    </linearGradient>
  </defs>

  <!-- Background -->
  <rect width='1200' height='630' fill='url(#bg-gradient)'/>

  <!-- Decorative elements -->
  <circle cx='1100' cy='100' r='200' fill='#2E86AB' opacity='0.1'/>
  <circle cx='100' cy='530' r='150' fill='#F18F01' opacity='0.1'/>

  <!-- Main title -->
  <text x='60' y='120' font-family='Arial, sans-serif' font-size='48' font-weight='bold' fill='#ffffff'>
    AI-Accelerated Biological Discovery
  </text>

  <!-- Subtitle -->
  <text x='60' y='170' font-family='Arial, sans-serif' font-size='24' fill='#2E86AB'>
    A Quantitative Model
  </text>

  <!-- Main stat box -->
  <rect x='60' y='220' width='400' height='200' rx='16' fill='url(#accent-gradient)'/>

  <text x='260' y='310' font-family='Arial, sans-serif' font-size='56' font-weight='bold' fill='#ffffff' text-anchor='middle'>
    3.4x – 9.2x
  </text>
  <text x='260' y='360' font-family='Arial, sans-serif' font-size='20' fill='#ffffff' opacity='0.9' text-anchor='middle'>
    Acceleration by 2050
  </text>
  <text x='260' y='395' font-family='Arial, sans-serif' font-size='14' fill='#ffffff' opacity='0.7' text-anchor='middle'>
    80% Confidence Interval
  </text>

  <!-- Secondary stats -->
  <g transform='translate(520, 280)'>
    <text x='0' y='0' font-family='Arial, sans-serif' font-size='40' font-weight='bold' fill='#F18F01' text-anchor='middle'>5.7x</text>
    <text x='0' y='40' font-family='Arial, sans-serif' font-size='16' fill='#cccccc' text-anchor='middle'>Mean</text>
  </g>

  <g transform='translate(700, 280)'>
    <text x='0' y='0' font-family='Arial, sans-serif' font-size='40' font-weight='bold' fill='#F18F01' text-anchor='middle'>$47T</text>
    <text x='0' y='40' font-family='Arial, sans-serif' font-size='16' fill='#cccccc' text-anchor='middle'>Value</text>
  </g>

  <g transform='translate(880, 280)'>
    <text x='0' y='0' font-family='Arial, sans-serif' font-size='40' font-weight='bold' fill='#F18F01' text-anchor='middle'>91.5%</text>
    <text x='0' y='40' font-family='Arial, sans-serif' font-size='16' fill='#cccccc' text-anchor='middle'>AI Sensitivity</text>
  </g>

  <!-- Mini chart -->
  <path d='M 60 550 Q 200 520 350 480 T 550 400' stroke='#F18F01' stroke-width='3' fill='none'/>
  <path d='M 60 550 Q 200 520 350 480 T 550 400 L 550 550 L 60 550 Z' fill='#2E86AB' opacity='0.2'/>

  <!-- Bottom tagline -->
  <text x='60' y='590' font-family='Arial, sans-serif' font-size='16' fill='#888888'>
    Monte Carlo simulation • Sobol sensitivity analysis • Policy ROI rankings
  </text>

  <!-- URL -->
  <text x='1140' y='600' font-family='Arial, sans-serif' font-size='14' fill='#2E86AB' text-anchor='end'>
    ai-bio-acceleration.github.io
  </text>
</svg>".

(** [svg_content] of [generate_og_image_svg]. *)
Definition svg_content : string := double_quoted svg_template.

(** ** The script *)

Section Script.
Context {F : Type} `{Number F}.
Local Open Scope io_scope.

(** Background gradient effect (lines 46-52). *)
Definition vignette (g : Globals) : IO F unit :=
  for_each (range 20) (fun i =>
    let alpha := (lit 0.02 * of_int (20 - i) / of_int 20)%num in
    primary <- getitem (COLORS g) "primary" ;;
    add_artist (Rectangle (of_int 0, of_int 0) (of_int 12) (lit 6.3)
                          primary (alpha * lit 0.5)%num)).

(** The literal list of lines 83-87. *)
Definition stats : list (string * string) :=
  [("5.7x", "Mean"); ("$47T", "Value"); ("91.5%", "AI Sensitivity")].

(** The loop over the secondary statistics (lines 89-96), for any list. *)
Definition secondary_stats (g : Globals) (stats : list (string * string)) : IO F unit :=
  for_each (enumerate stats) (fun '(i, (value, label)) =>
    let x := (lit 5.8 + of_int (i * 2))%num in
    accent <- getitem (COLORS g) "accent" ;;
    add_artist (Text x (lit 3.6) value
      {| fontsize := 24; fontweight := Some "bold"; color := accent;
         ha := "center"; va := "center"; fontfamily := "sans-serif";
         text_alpha := None |}) ;;
    light <- getitem (COLORS g) "light" ;;
    add_artist (Text x (lit 2.9) label
      {| fontsize := 11; fontweight := None; color := light;
         ha := "center"; va := "center"; fontfamily := "sans-serif";
         text_alpha := Some (lit 0.8) |})).

(** The samples of the mini trajectory chart (lines 109-114); numpy
    arithmetic is element by element, and [years**2] is the square. *)
Definition years : list F := linspace 0 5 50.

(** One element of [1 + years * 0.8 + 0.1 * years**2]. *)
Definition growth (t : F) : F := (of_int 1 + t * lit 0.8 + lit 0.1 * (t * t))%num.

Definition baseline : list F := map growth years.

Definition chart_x : list F := map (fun t => (t * lit 0.4 + lit 0.5)%num) years.

Definition chart_y : list F := map (fun b => (b * lit 0.15 + lit 0.3)%num) baseline.

Definition band_lower : list F := map (fun y => (y * lit 0.7)%num) chart_y.

Definition band_upper : list F := map (fun y => (y * lit 1.3)%num) chart_y.

(** Lines 116-118. *)
Definition trajectory_chart (g : Globals) : IO F unit :=
  primary <- getitem (COLORS g) "primary" ;;
  add_artist (FillBetween chart_x band_lower band_upper primary (lit 0.2)) ;;
  accent <- getitem (COLORS g) "accent" ;;
  add_artist (Line2D chart_x chart_y accent 2).

(** Lines 33-130, statement by statement. *)
Definition generate_og_image_matplotlib (g : Globals) : IO F unit :=
  subplots (of_int 12, lit 6.3) 100 ;;
  dark <- getitem (COLORS g) "dark" ;;
  set_fig_facecolor dark ;;
  dark <- getitem (COLORS g) "dark" ;;
  set_ax_facecolor dark ;;
  set_xlim (of_int 0) (of_int 12) ;;
  set_ylim (of_int 0) (lit 6.3) ;;
  axis_off ;;
  vignette g ;;
  white <- getitem (COLORS g) "white" ;;
  add_artist (Text (lit 0.5) (lit 5.5) "AI-Accelerated Biological Discovery"
    {| fontsize := 32; fontweight := Some "bold"; color := white;
       ha := "left"; va := "top"; fontfamily := "sans-serif"; text_alpha := None |}) ;;
  primary <- getitem (COLORS g) "primary" ;;
  add_artist (Text (lit 0.5) (lit 4.8) "A Quantitative Model"
    {| fontsize := 18; fontweight := None; color := primary;
       ha := "left"; va := "top"; fontfamily := "sans-serif"; text_alpha := None |}) ;;
  primary <- getitem (COLORS g) "primary" ;;
  add_artist (FancyBboxPatch (lit 0.5, lit 2.2) (lit 4.5) (lit 2.2)
    "round,pad=0.1,rounding_size=0.2" primary "none" (lit 0.9)) ;;
  white <- getitem (COLORS g) "white" ;;
  add_artist (Text (lit 2.75) (lit 3.9) "3.4x – 9.2x"
    {| fontsize := 36; fontweight := Some "bold"; color := white;
       ha := "center"; va := "center"; fontfamily := "sans-serif"; text_alpha := None |}) ;;
  white <- getitem (COLORS g) "white" ;;
  add_artist (Text (lit 2.75) (lit 3.0) "Acceleration by 2050"
    {| fontsize := 14; fontweight := None; color := white;
       ha := "center"; va := "center"; fontfamily := "sans-serif";
       text_alpha := Some (lit 0.9) |}) ;;
  white <- getitem (COLORS g) "white" ;;
  add_artist (Text (lit 2.75) (lit 2.5) "80% Confidence Interval"
    {| fontsize := 11; fontweight := None; color := white;
       ha := "center"; va := "center"; fontfamily := "sans-serif";
       text_alpha := Some (lit 0.7) |}) ;;
  secondary_stats g stats ;;
  light <- getitem (COLORS g) "light" ;;
  add_artist (Text (lit 0.5) (lit 1.2)
    "Monte Carlo simulation • Sobol sensitivity analysis • Policy ROI rankings"
    {| fontsize := 12; fontweight := None; color := light;
       ha := "left"; va := "center"; fontfamily := "sans-serif";
       text_alpha := Some (lit 0.6) |}) ;;
  primary <- getitem (COLORS g) "primary" ;;
  add_artist (Text (lit 11.5) (lit 0.4) "ai-bio-acceleration.github.io"
    {| fontsize := 10; fontweight := None; color := primary;
       ha := "right"; va := "center"; fontfamily := "sans-serif"; text_alpha := None |}) ;;
  trajectory_chart g ;;
  tight_layout 0 ;;
  dark <- getitem (COLORS g) "dark" ;;
  savefig (path_join (OUTPUT_DIR g) "og-image.png")
    {| save_dpi := 100; save_facecolor := dark; bbox_inches := "tight"; pad_inches := 0 |} ;;
  close ;;
  print ("Generated: " ++ path_str (path_join (OUTPUT_DIR g) "og-image.png")).

(** Lines 133-213: the file is opened in text mode with the platform's
    defaults (line 210), the text written (line 211), the path printed. *)
Definition generate_og_image_svg (g : Globals) : IO F unit :=
  open_for_writing (path_join (OUTPUT_DIR g) "og-image.svg") ;;
  write_text (path_join (OUTPUT_DIR g) "og-image.svg") (characters svg_content) ;;
  print ("Generated: " ++ path_str (path_join (OUTPUT_DIR g) "og-image.svg")).

(** Lines 216-226. *)
Definition main (g : Globals) : IO F unit :=
  print "Generating Open Graph image (1200x630)..." ;;
  (if HAS_MATPLOTLIB g then generate_og_image_matplotlib g else ret tt) ;;
  generate_og_image_svg g ;;
  print (newline ++ "Done! Use og-image.png for social sharing.") ;;
  print "Update <meta property='og:image'> in index.html to point to the hosted URL.".

(** *** Running the file as a script *)

(** What the interpreter finds around the script: which modules import,
    and the directory of the script file. *)
Record Env := {
  importable : string -> bool;
  script_dir : path
}.

(** An [import] statement: it raises [ImportError] when the module is
    missing. *)
Definition import (e : Env) (module_name : string) : IO F unit :=
  if importable e module_name then ret tt else raise (ImportError module_name).

(** [try: body except ImportError: handler]. *)
Definition try_except_ImportError {A} (body handler : IO F A) : IO F A :=
  fun w =>
    match body w with
    | (inl (ImportError _), w') => handler w'
    | r => r
    end.

(** The globals once the module body has run. *)
Definition globals (has : bool) (dir : path) : Globals :=
  {| HAS_MATPLOTLIB := has; OUTPUT_DIR := dir; COLORS := COLORS_literal |}.

(** The module body, top to bottom (lines 7-31 and 229-230). *)
Definition script (e : Env) : IO F unit :=
  import e "numpy" ;;
  has <- try_except_ImportError
           (import e "matplotlib.pyplot" ;;
            import e "matplotlib.patches" ;;
            import e "matplotlib.patches" ;;
            ret true)
           (print "matplotlib not available, generating SVG fallback" ;;
            ret false) ;;
  main (globals has (script_dir e)).

(** The exit status of the interpreter: 0, or 1 after an uncaught
    exception. *)
Definition run (e : Env) (w : World F) : Z * World F :=
  match script e w with
  | (inr _, w') => (0%Z, w')
  | (inl _, w') => (1%Z, w')
  end.

End Script.

(** ** Reading markup *)

(** A reader for the part of XML 1.0 the card uses: an optional XML
    declaration, comments, elements with quoted attributes, empty-element
    tags and character data.  It is strict where it is incomplete: entity
    references, CDATA sections, processing instructions and document type
    declarations are refused, so every text it accepts is well-formed. *)
Module Xml.

#[local] Set Warnings "-register-all".
Inductive node :=
| Element (name : string) (attrs : list (string * string)) (children : list node)
| CharData (s : string)
| Comment (s : string).

#[local] Set Warnings "+register-all".

Record document := {
  declaration : list (string * string);
  root : node
}.

Definition code (c : ascii) : N := N_of_ascii c.

Definition is_space (c : ascii) : bool :=
  let n := code c in (n =? 32)%N || (n =? 9)%N || (n =? 10)%N || (n =? 13)%N.

Definition is_digit (c : ascii) : bool :=
  let n := code c in (48 <=? n)%N && (n <=? 57)%N.

Definition is_letter (c : ascii) : bool :=
  let n := code c in
  ((65 <=? n)%N && (n <=? 90)%N) || ((97 <=? n)%N && (n <=? 122)%N).

Definition is_name_start (c : ascii) : bool :=
  is_letter c || (code c =? 95)%N || (code c =? 58)%N.

Definition is_name_char (c : ascii) : bool :=
  is_name_start c || is_digit c || (code c =? 45)%N || (code c =? 46)%N.

(** The longest prefix whose characters satisfy [p], and the rest. *)
Fixpoint span (p : ascii -> bool) (s : string) : string * string :=
  match s with
  | EmptyString => (EmptyString, EmptyString)
  | String c s' =>
      if p c then let '(a, b) := span p s' in (String c a, b)
      else (EmptyString, s)
  end.

Fixpoint drop_prefix (pre s : string) : option string :=
  match pre, s with
  | EmptyString, _ => Some s
  | String a pre', String b s' => if Ascii.eqb a b then drop_prefix pre' s' else None
  | String _ _, EmptyString => None
  end.

Definition starts_with (pre s : string) : bool :=
  match drop_prefix pre s with
  | Some _ => true
  | None => false
  end.

Fixpoint contains (needle s : string) : bool :=
  starts_with needle s ||
  match s with
  | EmptyString => false
  | String _ s' => contains needle s'
  end.

Definition skip_space (s : string) : string := snd (span is_space s).

Definition parse_name (s : string) : option (string * string) :=
  match s with
  | String c _ => if is_name_start c then Some (span is_name_char s) else None
  | EmptyString => None
  end.

(** A quoted attribute value: no [<], no [&], up to the matching quote. *)
Definition parse_value (s : string) : option (string * string) :=
  match s with
  | String q s' =>
      if (code q =? 34)%N || (code q =? 39)%N then
        let '(v, rest) := span (fun c => negb (Ascii.eqb c q)) s' in
        if contains "<" v || contains "&" v then None
        else rest' ← drop_prefix (String q EmptyString) rest; Some (v, rest')
      else None
  | EmptyString => None
  end.

(** Attributes, each preceded by white space; stops before the first
    character that cannot start one. *)
Fixpoint parse_attributes (fuel : nat) (s : string)
    : option (list (string * string) * string) :=
  match fuel with
  | O => None
  | S fuel' =>
      let '(ws, s1) := span is_space s in
      match parse_name s1 with
      | None => Some ([], s1)
      | Some (name, s2) =>
          match ws with
          | EmptyString => None
          | _ =>
              s3 ← drop_prefix "=" (skip_space s2);
              '(v, s4) ← parse_value (skip_space s3);
              '(more, s5) ← parse_attributes fuel' s4;
              Some ((name, v) :: more, s5)
          end
      end
  end.

(** The body of a comment, after its opening [<!--]: it ends at the first
    double hyphen, which must be the closing one. *)
Fixpoint parse_comment (s : string) : option (string * string) :=
  match s with
  | EmptyString => None
  | String c s' =>
      if starts_with "--" s then
        rest ← drop_prefix "-->" s; Some (EmptyString, rest)
      else '(body, rest) ← parse_comment s'; Some (String c body, rest)
  end.

Fixpoint parse_element (fuel : nat) (s : string) : option (node * string) :=
  match fuel with
  | O => None
  | S fuel' =>
      s1 ← drop_prefix "<" s;
      '(name, s2) ← parse_name s1;
      '(attrs, s3) ← parse_attributes (S (String.length s2)) s2;
      if bool_decide (NoDup attrs.*1) then
        match drop_prefix "/>" s3 with
        | Some rest => Some (Element name attrs [], rest)
        | None =>
            s4 ← drop_prefix ">" s3;
            '(children, s5) ← parse_content fuel' s4;
            s6 ← drop_prefix "</" s5;
            '(name', s7) ← parse_name s6;
            s8 ← drop_prefix ">" (skip_space s7);
            if String.eqb name name' then Some (Element name attrs children, s8)
            else None
        end
      else None
  end
with parse_content (fuel : nat) (s : string) : option (list node * string) :=
  match fuel with
  | O => None
  | S fuel' =>
      if starts_with "</" s then Some ([], s)
      else if starts_with "<!--" s then
        s1 ← drop_prefix "<!--" s;
        '(body, s2) ← parse_comment s1;
        '(more, s3) ← parse_content fuel' s2;
        Some (Comment body :: more, s3)
      else if starts_with "<" s then
        '(e, s1) ← parse_element fuel' s;
        '(more, s2) ← parse_content fuel' s1;
        Some (e :: more, s2)
      else
        match s with
        | EmptyString => None
        | _ =>
            let '(txt, s1) := span (fun c => negb (code c =? 60)%N) s in
            if contains "&" txt || contains "]]>" txt then None
            else '(more, s2) ← parse_content fuel' s1; Some (CharData txt :: more, s2)
        end
  end.

(** White space and comments around the root element. *)
Fixpoint skip_misc (fuel : nat) (s : string) : option string :=
  match fuel with
  | O => None
  | S fuel' =>
      let s1 := skip_space s in
      if starts_with "<!--" s1 then
        s2 ← drop_prefix "<!--" s1;
        '(_, s3) ← parse_comment s2;
        skip_misc fuel' s3
      else Some s1
  end.

(** The pseudo-attributes an XML declaration may carry, in order. *)
Definition declaration_names : list (list string) :=
  [["version"]; ["version"; "encoding"]; ["version"; "standalone"];
   ["version"; "encoding"; "standalone"]].

Fixpoint every (p : ascii -> bool) (s : string) : bool :=
  match s with
  | EmptyString => true
  | String c s' => p c && every p s'
  end.

(** [VersionNum]: [1.] and at least one digit. *)
Definition is_version (v : string) : bool :=
  match drop_prefix "1." v with
  | Some (String d ds) => is_digit d && every is_digit ds
  | _ => false
  end.

(** [EncName]: a Latin letter, then letters, digits, full stops, underscores
    and hyphens. *)
Definition is_encoding_name (v : string) : bool :=
  match v with
  | String c r =>
      is_letter c
      && every (fun x => is_letter x || is_digit x || (code x =? 46)%N
                         || (code x =? 95)%N || (code x =? 45)%N) r
  | EmptyString => false
  end.

(** What each pseudo-attribute of the declaration may hold. *)
Definition declaration_value (kv : string * string) : bool :=
  if String.eqb kv.1 "version" then is_version kv.2
  else if String.eqb kv.1 "encoding" then is_encoding_name kv.2
  else if String.eqb kv.1 "standalone" then String.eqb kv.2 "yes" || String.eqb kv.2 "no"
  else false.

(** [<?xml version=... encoding=... standalone=...?>], only at the very
    start of the text. *)
Definition parse_declaration (s : string) : option (list (string * string) * string) :=
  match drop_prefix "<?xml" s with
  | None => Some ([], s)
  | Some s1 =>
      '(attrs, s2) ← parse_attributes (S (String.length s1)) s1;
      rest ← drop_prefix "?>" s2;
      if bool_decide (attrs.*1 ∈ declaration_names) && forallb declaration_value attrs
      then Some (attrs, rest) else None
  end.

Definition parse_document (s : string) : option document :=
  '(decl, s1) ← parse_declaration s;
  s2 ← skip_misc (S (String.length s1)) s1;
  '(e, s3) ← parse_element (S (String.length s2)) s2;
  s4 ← skip_misc (S (String.length s3)) s3;
  match s4 with
  | EmptyString => Some {| declaration := decl; root := e |}
  | _ => None
  end.

(** The bytes are UTF-8 encoded characters that XML allows. *)
Fixpoint utf8_chars (fuel : nat) (l : list N) : bool :=
  let cont b := (128 <=? b)%N && (b <=? 191)%N in
  match fuel with
  | O => false
  | S fuel' =>
      match l with
      | [] => true
      | b :: l1 =>
          if (b <? 128)%N then
            ((32 <=? b)%N || (b =? 9)%N || (b =? 10)%N || (b =? 13)%N)
            && utf8_chars fuel' l1
          else if (194 <=? b)%N && (b <=? 223)%N then
            match l1 with
            | b1 :: l2 => cont b1 && utf8_chars fuel' l2
            | _ => false
            end
          else if (224 <=? b)%N && (b <=? 239)%N then
            match l1 with
            | b1 :: b2 :: l3 =>
                cont b1 && cont b2
                && (if (b =? 224)%N then (160 <=? b1)%N else true)
                && (if (b =? 237)%N then (b1 <=? 159)%N else true)
                && negb ((b =? 239)%N && (b1 =? 191)%N && (190 <=? b2)%N)
                && utf8_chars fuel' l3
            | _ => false
            end
          else if (240 <=? b)%N && (b <=? 244)%N then
            match l1 with
            | b1 :: b2 :: b3 :: l4 =>
                cont b1 && cont b2 && cont b3
                && (if (b =? 240)%N then (144 <=? b1)%N else true)
                && (if (b =? 244)%N then (b1 <=? 143)%N else true)
                && utf8_chars fuel' l4
            | _ => false
            end
          else false
      end
  end.

Definition bytes (s : string) : list N := map code (list_ascii_of_string s).

Definition utf8_valid (s : string) : bool :=
  utf8_chars (S (String.length s)) (bytes s).

(** The encoding a document names for itself; UTF-8 when it names none. *)
Definition declared_encoding (d : document) : string :=
  default "UTF-8" (snd <$> List.find (fun kv => String.eqb (fst kv) "encoding") (declaration d)).

(** *** Reading the tree *)

Definition attribute (k : string) (e : node) : option string :=
  match e with
  | Element _ attrs _ => snd <$> List.find (fun kv => String.eqb (fst kv) k) attrs
  | _ => None
  end.

Definition is_element (name : string) (e : node) : bool :=
  match e with
  | Element n _ _ => String.eqb n name
  | _ => false
  end.






End Xml.


(** ** Well-formed markup, declaratively *)

(** The texts the reader is meant to accept, as a grammar: which text
    spells which tree.  It follows the productions of XML 1.0 for the XML
    declaration, start, end and empty-element tags, attributes, comments and
    character data, with the well-formedness constraints that tags nest and
    match and that no attribute name repeats. *)
Module Grammar.
Import Xml.

Fixpoint all_chars (p : ascii -> bool) (s : string) : bool :=
  match s with
  | EmptyString => true
  | String c s' => p c && all_chars p s'
  end.

Definition is_name (n : string) : bool :=
  match n with
  | String c r => is_name_start c && all_chars is_name_char r
  | EmptyString => false
  end.

Definition blank (s : string) : bool := all_chars is_space s.

Definition is_quote (q : ascii) : bool := (code q =? 34)%N || (code q =? 39)%N.

Definition is_value (q : ascii) (v : string) : bool :=
  all_chars (fun c => negb (Ascii.eqb c q)) v
  && negb (contains "<" v) && negb (contains "&" v).

Definition is_chardata (t : string) : bool :=
  negb (String.eqb t "")
  && all_chars (fun c => negb (code c =? 60)%N) t
  && negb (contains "&" t) && negb (contains "]]>" t).

(** No double hyphen inside a comment, and no hyphen right before its end. *)
Definition is_comment (body : string) : bool := negb (contains "--" (body ++ "-")).

Inductive attributes_in : list (string * string) -> string -> Prop :=
| attributes_end ws :
    blank ws = true -> attributes_in [] ws
| attributes_more ws n ws1 ws2 q v attrs rest :
    ws <> "" -> blank ws = true -> is_name n = true ->
    blank ws1 = true -> blank ws2 = true ->
    is_quote q = true -> is_value q v = true ->
    attributes_in attrs rest ->
    attributes_in ((n, v) :: attrs)
      (ws ++ n ++ ws1 ++ "=" ++ ws2 ++ String q (v ++ String q rest)).

Inductive element_in : node -> string -> Prop :=
| element_empty n attrs t :
    is_name n = true -> attributes_in attrs t -> NoDup attrs.*1 ->
    element_in (Element n attrs []) ("<" ++ n ++ t ++ "/>")
| element_full n attrs t children body ws :
    is_name n = true -> attributes_in attrs t -> NoDup attrs.*1 ->
    content_in children body -> blank ws = true ->
    element_in (Element n attrs children)
      ("<" ++ n ++ t ++ ">" ++ body ++ "</" ++ n ++ ws ++ ">")
with content_in : list node -> string -> Prop :=
| content_end : content_in [] ""
| content_comment c cs rest :
    is_comment c = true -> content_in cs rest ->
    content_in (Comment c :: cs) ("<!--" ++ c ++ "-->" ++ rest)
| content_element e s cs rest :
    element_in e s -> content_in cs rest -> content_in (e :: cs) (s ++ rest)
| content_chardata t cs rest :
    is_chardata t = true -> content_in cs rest ->
    content_in (CharData t :: cs) (t ++ rest).

Inductive misc_in : string -> Prop :=
| misc_blank ws : blank ws = true -> misc_in ws
| misc_comment ws c rest :
    blank ws = true -> is_comment c = true -> misc_in rest ->
    misc_in (ws ++ "<!--" ++ c ++ "-->" ++ rest).

Inductive declaration_in : list (string * string) -> string -> Prop :=
| declaration_absent : declaration_in [] ""
| declaration_present attrs t :
    attributes_in attrs t ->
    attrs.*1 ∈ declaration_names ->
    Forall (fun kv => declaration_value kv = true) attrs ->
    declaration_in attrs ("<?xml" ++ t ++ "?>").

(** A document: declaration, then the root element between comments and
    white space, and nothing else. *)
Inductive document_in : document -> string -> Prop :=
| document_parts attrs dt m1 e et m2 :
    declaration_in attrs dt -> misc_in m1 -> element_in e et -> misc_in m2 ->
    document_in {| declaration := attrs; root := e |} (dt ++ m1 ++ et ++ m2).

End Grammar.

(** * Vocabulary of the statements *)

Section Observations.
Context {F : Type} `{Number F}.

(** Nothing written, printed or drawn yet, on Linux with a UTF-8 locale. *)
Definition empty_world : World F :=
  {| files := ∅; stdout := []; gcf := None; platform := posix_utf8 |}.

(** The same files, output and figure on another platform. *)
Definition on_platform (pf : Platform) (w : World F) : World F :=
  {| files := files w; stdout := stdout w; gcf := gcf w; platform := pf |}.

(** The world right after [plt.subplots]: a figure with nothing drawn. *)
Definition blank_canvas : World F := snd (subplots (of_int 12, lit 6.3) 100 empty_world).

Definition png_path (dir : path) : path := path_join dir "og-image.png".

Definition svg_path (dir : path) : path := path_join dir "og-image.svg".

(** The raster artifact, read back from a call of the raster function in
    an empty world. *)
Definition raster_artifact : option (file_content F) :=
  files (snd (generate_og_image_matplotlib (globals true []) empty_world)) !! png_path [].

(** The figure inside the PNG file of a world. *)
Definition raster_figure (dir : path) (w : World F) : option (Figure F) :=
  match files w !! png_path dir with
  | Some (PngImage fg _) => Some fg
  | _ => None
  end.

(** [painted fg]: whatever the world and the output directory, the raster
    function leaves [fg] in the PNG file. *)
Definition painted (fg : Figure F) : Prop :=
  forall has dir w,
    raster_figure dir (snd (generate_og_image_matplotlib (globals has dir) w)) = Some fg.


(** The opacity line 51 gives the rectangle of layer [i]: [alpha * 0.5]
    with [alpha = 0.02 * (20 - i) / 20]. *)
Definition layer_opacity (i : Z) : F :=
  (lit 0.02 * of_int (20 - i) / of_int 20 * lit 0.5)%num.

(** Comparisons of number lists through the instance's own tests. *)
Fixpoint increasing (l : list F) : bool :=
  match l with
  | a :: (b :: _) as l' => fltb a b && increasing l'
  | _ => true
  end.

Fixpoint decreasing (l : list F) : bool :=
  match l with
  | a :: (b :: _) as l' => fltb b a && decreasing l'
  | _ => true
  end.

Definition within (lo hi : F) (l : list F) : bool :=
  forallb (fun v => fleb lo v && fleb v hi) l.

Definition above (lo : F) (l : list F) : bool := forallb (fun v => fltb lo v) l.

Fixpoint same_numbers (l1 l2 : list F) : bool :=
  match l1, l2 with
  | [], [] => true
  | a :: l1', b :: l2' => feqb a b && same_numbers l1' l2'
  | _, _ => false
  end.

(** Differences of neighbours, [l[i+1] - l[i]]. *)
Fixpoint gaps (l : list F) : list F :=
  match l with
  | a :: (b :: _) as l' => (b - a)%num :: gaps l'
  | _ => []
  end.

(** Samples whose increments grow: [l[i+1] - l[i] < l[i+2] - l[i+1]]. *)
Definition convex_samples (l : list F) : bool := increasing (gaps l).

Definition is_rectangle (a : Artist F) : bool :=
  match a with
  | Rectangle _ _ _ _ _ => true
  | _ => false
  end.

Definition layer_alpha (a : Artist F) : option F :=
  match a with
  | Rectangle _ _ _ _ alpha => Some alpha
  | _ => None
  end.

(** The opacities of the rectangles of a figure, bottom layer first. *)
Definition layer_alphas (fg : Figure F) : list F := omap layer_alpha (artists fg).

(** A rectangle of the given colour spanning the axes limits exactly. *)
Definition spans_axes (fg : Figure F) (colour : string) (a : Artist F) : bool :=
  match a, xlim fg, ylim fg with
  | Rectangle (x, y) w h c _, Some (x0, x1), Some (y0, y1) =>
      feqb x x0 && feqb y y0 && feqb (x + w)%num x1 && feqb (y + h)%num y1
      && String.eqb c colour
  | _, _, _ => false
  end.

(** The texts anchored at height [y] among the artists [l], with their
    horizontal anchors, in drawing order. *)
Definition texts_at (y : F) (l : list (Artist F)) : list (F * string) :=
  omap (fun a =>
          match a with
          | Text x y' s _ => if feqb y' y then Some (x, s) else None
          | _ => None
          end)
       l.

Definition text_string (a : Artist F) : option string :=
  match a with
  | Text _ _ s _ => Some s
  | _ => None
  end.

(** The last two artists of a figure. *)
Definition top_two (fg : Figure F) : list (Artist F) :=
  drop (length (artists fg) - 2) (artists fg).

(** What one iteration of the loop over the statistics adds, given the two
    colours it looks up. *)
Definition stat_texts (accent light : string) (entry : Z * (string * string))
    : list (Artist F) :=
  let x := (lit 5.8 + of_int (entry.1 * 2))%num in
  [Text x (lit 3.6) entry.2.1
     {| fontsize := 24; fontweight := Some "bold"; color := accent;
        ha := "center"; va := "center"; fontfamily := "sans-serif";
        text_alpha := None |};
   Text x (lit 2.9) entry.2.2
     {| fontsize := 11; fontweight := None; color := light;
        ha := "center"; va := "center"; fontfamily := "sans-serif";
        text_alpha := Some (lit 0.8) |}].

End Observations.

(** The bytes of the vector card on a platform, where its encoding has
    every character of the text. *)
Definition svg_bytes (pf : Platform) : option string :=
  text_bytes pf (characters svg_content).

(** What the vector function leaves at its path: the card, or the empty
    file that [open] made when the write raised. *)
Definition vector_file {F} (pf : Platform) : file_content F :=
  FileBytes (default "" (svg_bytes pf)).

(** How the vector function ends on a platform. *)
Definition vector_result (pf : Platform) : exn + unit :=
  match svg_bytes pf with
  | Some _ => inr tt
  | None => inl UnicodeEncodeError
  end.

(** A binary64 value within [tol] of a rational. *)
Definition near (tol : Q) (x : float) (q : Q) : bool :=
  Qle_bool (Qabs (Q_of_float x - q)) tol.


(** The last lines [main] prints. *)
Definition completion_notes : list string :=
  [(newline ++ "Done! Use og-image.png for social sharing.")%string;
   "Update <meta property='og:image'> in index.html to point to the hosted URL."].

(** Both matplotlib modules of lines 11-13 import. *)
Definition matplotlib_importable (e : Env) : bool :=
  importable e "matplotlib.pyplot" && importable e "matplotlib.patches".

(** An interpreter with no third-party package installed. *)
Definition bare_python (dir : path) : Env :=
  {| importable := fun _ => false; script_dir := dir |}.

(** An interpreter with numpy but without matplotlib. *)
Definition numpy_only (dir : path) : Env :=
  {| importable := fun m => String.eqb m "numpy"; script_dir := dir |}.

(** An interpreter with numpy and matplotlib. *)
Definition full_python (dir : path) : Env :=
  {| importable := fun _ => true; script_dir := dir |}.

(** ** Dictionaries and environments at large *)

(** The keys of [COLORS] the raster function reads, in the order of their
    first use (lines 37, 49, 56, 92 and 95). *)
Definition colour_keys : list string := ["dark"; "primary"; "white"; "accent"; "light"].

(** The first of [keys] that dictionary [c] lacks. *)
Fixpoint first_missing_in (c : gmap string string) (keys : list string) : option string :=
  match keys with
  | [] => None
  | k :: keys' =>
      match c !! k with
      | None => Some k
      | Some _ => first_missing_in c keys'
      end
  end.

Definition first_missing (c : gmap string string) : option string :=
  first_missing_in c colour_keys.

(** Globals with any dictionary in place of the literal one. *)
Definition globals_with (has : bool) (dir : path) (c : gmap string string) : Globals :=
  {| HAS_MATPLOTLIB := has; OUTPUT_DIR := dir; COLORS := c |}.

(** The paths a run writes. *)
Definition run_paths (e : Env) : gset path :=
  if importable e "numpy" then
    if matplotlib_importable e then {[png_path (script_dir e); svg_path (script_dir e)]}
    else {[svg_path (script_dir e)]}
  else ∅.

(** The horizontal anchors of the entries of a list of [n] statistics. *)
Definition stat_anchors (n : nat) : list float :=
  map (fun i => (lit 5.8 + of_int (i * 2))%num) (range n).


(** * Lemmas and theorems *)

(** ** The reader accepts only what the grammar derives *)

Module GrammarFacts.
Import Xml Grammar.

Lemma append_cons (c : ascii) (a b : string) :
  (String c a ++ b = String c (a ++ b))%string.
Proof. reflexivity. Qed.

Lemma append_empty_l (b : string) : ("" ++ b = b)%string.
Proof. reflexivity. Qed.

Lemma append_assoc (a b c : string) : ((a ++ b) ++ c = a ++ b ++ c)%string.
Proof.
  induction a as [|x a IH]; [reflexivity|].
  change (String x ((a ++ b) ++ c) = String x (a ++ b ++ c))%string. f_equal. exact IH.
Qed.

Lemma append_empty_r (a : string) : (a ++ "" = a)%string.
Proof.
  induction a as [|x a IH]; [reflexivity|].
  change (String x (a ++ "") = String x a)%string. f_equal. exact IH.
Qed.

(** Brings both sides of an equation between texts to the same shape. *)
Ltac flatten :=
  repeat (rewrite append_assoc || rewrite append_cons || rewrite append_empty_l
          || rewrite append_empty_r).

Lemma span_spec (p : ascii -> bool) (s a b : string) :
  span p s = (a, b) -> s = (a ++ b)%string /\ all_chars p a = true.
Proof.
  revert a b. induction s as [|c s IH]; intros a b E; cbn in E.
  - injection E as <- <-. split; reflexivity.
  - destruct (p c) eqn:Hc.
    + destruct (span p s) as [a' b'] eqn:Es. injection E as <- <-.
      destruct (IH a' b' eq_refl) as [-> Ha]. cbn [all_chars]. rewrite Hc, Ha.
      split; reflexivity.
    + injection E as <- <-. split; reflexivity.
Qed.

Lemma drop_prefix_spec (pre s r : string) :
  drop_prefix pre s = Some r -> s = (pre ++ r)%string.
Proof.
  revert s. induction pre as [|a pre IH]; intros s E; cbn in E.
  - injection E as ->. reflexivity.
  - destruct s as [|b s]; [discriminate|].
    destruct (Ascii.eqb a b) eqn:Hab; [|discriminate].
    apply Ascii.eqb_eq in Hab as ->. rewrite append_cons. f_equal. apply IH, E.
Qed.

Lemma skip_space_spec (s : string) :
  exists ws, s = (ws ++ skip_space s)%string /\ blank ws = true.
Proof.
  unfold skip_space. destruct (span is_space s) as [ws r] eqn:E.
  exists ws. apply span_spec in E. exact E.
Qed.

Lemma parse_name_spec (s n r : string) :
  parse_name s = Some (n, r) -> s = (n ++ r)%string /\ is_name n = true.
Proof.
  unfold parse_name. destruct s as [|c s]; [discriminate|].
  destruct (is_name_start c) eqn:Hc; [|discriminate].
  intros E. injection E as E. cbn in E.
  assert (Hc' : is_name_char c = true) by (unfold is_name_char; rewrite Hc; reflexivity).
  rewrite Hc' in E. destruct (span is_name_char s) as [a b] eqn:Es.
  injection E as <- <-. apply span_spec in Es as [-> Ha].
  split; [reflexivity|]. cbn. rewrite Hc, Ha. reflexivity.
Qed.

Lemma parse_value_spec (s v r : string) :
  parse_value s = Some (v, r) ->
  exists q, s = String q (v ++ String q r) /\ is_quote q = true /\ is_value q v = true.
Proof.
  unfold parse_value. destruct s as [|q s]; [discriminate|].
  destruct ((code q =? 34)%N || (code q =? 39)%N) eqn:Hq; [|discriminate].
  destruct (span (fun c => negb (Ascii.eqb c q)) s) as [v' rest] eqn:Es.
  destruct (contains "<" v' || contains "&" v') eqn:Hbad; [discriminate|].
  destruct (drop_prefix (String q "") rest) as [rest'|] eqn:Ed; [|discriminate].
  cbn. intros E. injection E as <- <-.
  apply span_spec in Es as [-> Hv]. apply drop_prefix_spec in Ed as ->.
  apply orb_false_elim in Hbad as [H1 H2].
  exists q. split; [reflexivity|]. split; [exact Hq|].
  unfold is_value. rewrite Hv, H1, H2. reflexivity.
Qed.

Lemma parse_attributes_spec (fuel : nat) (s : string) attrs (r : string) :
  parse_attributes fuel s = Some (attrs, r) ->
  exists t, s = (t ++ r)%string /\ attributes_in attrs t.
Proof.
  revert s attrs r. induction fuel as [|fuel IH]; intros s attrs r E; [discriminate|].
  cbn [parse_attributes] in E.
  destruct (span is_space s) as [ws s1] eqn:Ews.
  apply span_spec in Ews as [-> Hws].
  destruct (parse_name s1) as [[n s2]|] eqn:En.
  - destruct ws as [|w ws]; [discriminate|].
    apply parse_name_spec in En as [-> Hn].
    destruct (skip_space_spec s2) as (ws1 & E2 & Hws1).
    destruct (drop_prefix "=" (skip_space s2)) as [s3|] eqn:Eeq; [|discriminate].
    apply drop_prefix_spec in Eeq. rewrite Eeq in E2. clear Eeq.
    destruct (skip_space_spec s3) as (ws2 & E3 & Hws2).
    cbn [mbind option_bind] in E.
    destruct (parse_value (skip_space s3)) as [[v s4]|] eqn:Ev; [|discriminate].
    apply parse_value_spec in Ev as (q & Ev & Hq & Hv). rewrite Ev in E3. clear Ev.
    cbn [mbind option_bind] in E.
    destruct (parse_attributes fuel s4) as [[more s5]|] eqn:Em; [|discriminate].
    cbn [mbind option_bind] in E. injection E as <- <-.
    apply IH in Em as (t & -> & Ht).
    exists (String w ws ++ n ++ ws1 ++ "=" ++ ws2 ++ String q (v ++ String q t))%string.
    split.
    + rewrite E2, E3. flatten. reflexivity.
    + apply attributes_more; try assumption. discriminate.
  - injection E as <- <-. exists ws. split; [reflexivity|].
    apply attributes_end, Hws.
Qed.

Lemma hyphens_ahead (c : ascii) (b x : string) :
  starts_with "--" (String c (b ++ "-" ++ x)) = starts_with "--" (String c (b ++ "-")).
Proof.
  unfold starts_with. destruct b as [|d b]; cbn [drop_prefix]; flatten;
    cbn [drop_prefix]; repeat destruct (Ascii.eqb _ _); reflexivity.
Qed.

Lemma parse_comment_spec (s body r : string) :
  parse_comment s = Some (body, r) ->
  s = (body ++ "-->" ++ r)%string /\ is_comment body = true.
Proof.
  revert body. induction s as [|c s IH]; intros body E; [discriminate|].
  cbn [parse_comment] in E.
  destruct (starts_with "--" (String c s)) eqn:Hs.
  - destruct (drop_prefix "-->" (String c s)) as [rest|] eqn:Ed; [|discriminate].
    cbn [mbind option_bind] in E. injection E as <- <-.
    apply drop_prefix_spec in Ed. split; [exact Ed | reflexivity].
  - destruct (parse_comment s) as [[body' rest]|] eqn:Ep; [|discriminate].
    cbn [mbind option_bind] in E. injection E as <- <-.
    destruct (IH body' eq_refl) as [-> Hb]. split; [flatten; reflexivity|].
    unfold is_comment in *. rewrite append_cons. cbn [contains].
    change "-->" with ("-" ++ "->")%string in Hs. rewrite (append_assoc "-") in Hs.
    rewrite hyphens_ahead in Hs. rewrite Hs. exact Hb.
Qed.

Lemma parse_tree_spec (fuel : nat) :
  (forall s e r, parse_element fuel s = Some (e, r) ->
     exists t, s = (t ++ r)%string /\ element_in e t) /\
  (forall s cs r, parse_content fuel s = Some (cs, r) ->
     exists t, s = (t ++ r)%string /\ content_in cs t).
Proof.
  induction fuel as [|fuel [IHe IHc]]; [split; discriminate|]. split.
  - intros s e r E. cbn [parse_element] in E.
    destruct (drop_prefix "<" s) as [s1|] eqn:E1; [|discriminate].
    apply drop_prefix_spec in E1 as ->. cbn [mbind option_bind] in E.
    destruct (parse_name s1) as [[n s2]|] eqn:E2; [|discriminate].
    apply parse_name_spec in E2 as [-> Hn]. cbn [mbind option_bind] in E.
    destruct (parse_attributes _ s2) as [[attrs s3]|] eqn:E3; [|discriminate].
    apply parse_attributes_spec in E3 as (t & -> & Ht). cbn [mbind option_bind] in E.
    destruct (bool_decide (NoDup attrs.*1)) eqn:Hnd; [|discriminate].
    apply bool_decide_eq_true in Hnd.
    destruct (drop_prefix "/>" s3) as [rest|] eqn:E4.
    + injection E as <- <-. apply drop_prefix_spec in E4 as ->.
      exists ("<" ++ n ++ t ++ "/>")%string. split; [flatten; reflexivity|].
      apply element_empty; assumption.
    + destruct (drop_prefix ">" s3) as [s4|] eqn:E5; [|discriminate].
      apply drop_prefix_spec in E5 as ->. cbn [mbind option_bind] in E.
      destruct (parse_content fuel s4) as [[children s5]|] eqn:E6; [|discriminate].
      apply IHc in E6 as (body & -> & Hbody). cbn [mbind option_bind] in E.
      destruct (drop_prefix "</" s5) as [s6|] eqn:E7; [|discriminate].
      apply drop_prefix_spec in E7 as ->. cbn [mbind option_bind] in E.
      destruct (parse_name s6) as [[n' s7]|] eqn:E8; [|discriminate].
      apply parse_name_spec in E8 as [-> Hn']. cbn [mbind option_bind] in E.
      destruct (skip_space_spec s7) as (ws & E9 & Hws).
      destruct (drop_prefix ">" (skip_space s7)) as [s8|] eqn:E10; [|discriminate].
      apply drop_prefix_spec in E10. rewrite E10 in E9. clear E10.
      cbn [mbind option_bind] in E.
      destruct (String.eqb n n') eqn:Hnn; [|discriminate].
      apply String.eqb_eq in Hnn as <-. injection E as <- <-. rewrite E9.
      exists ("<" ++ n ++ t ++ ">" ++ body ++ "</" ++ n ++ ws ++ ">")%string.
      split; [flatten; reflexivity|]. apply element_full; assumption.
  - intros s cs r E. cbn [parse_content] in E.
    destruct (starts_with "</" s) eqn:H1.
    { injection E as <- <-. exists ""%string. split; [reflexivity | constructor]. }
    destruct (starts_with "<!--" s) eqn:H2.
    { destruct (drop_prefix "<!--" s) as [s1|] eqn:E1; [|discriminate].
      apply drop_prefix_spec in E1 as ->. cbn [mbind option_bind] in E.
      destruct (parse_comment s1) as [[body s2]|] eqn:E2; [|discriminate].
      apply parse_comment_spec in E2 as [-> Hb]. cbn [mbind option_bind] in E.
      destruct (parse_content fuel s2) as [[more s3]|] eqn:E3; [|discriminate].
      apply IHc in E3 as (t & -> & Ht). cbn [mbind option_bind] in E.
      injection E as <- <-.
      exists ("<!--" ++ body ++ "-->" ++ t)%string. split; [flatten; reflexivity|].
      apply content_comment; assumption. }
    destruct (starts_with "<" s) eqn:H3.
    { destruct (parse_element fuel s) as [[e s1]|] eqn:E1; [|discriminate].
      apply IHe in E1 as (t1 & -> & Ht1). cbn [mbind option_bind] in E.
      destruct (parse_content fuel s1) as [[more s2]|] eqn:E2; [|discriminate].
      apply IHc in E2 as (t2 & -> & Ht2). cbn [mbind option_bind] in E.
      injection E as <- <-.
      exists (t1 ++ t2)%string. split; [flatten; reflexivity|].
      apply content_element; assumption. }
    destruct s as [|c s]; [discriminate|].
    destruct (span _ (String c s)) as [txt s1] eqn:E1.
    destruct (contains "&" txt || contains "]]>" txt) eqn:Hbad; [discriminate|].
    apply orb_false_elim in Hbad as [Hb1 Hb2].
    destruct (parse_content fuel s1) as [[more s2]|] eqn:E2; [|discriminate].
    apply IHc in E2 as (t2 & -> & Ht2). cbn [mbind option_bind] in E.
    injection E as <- <-.
    pose proof (span_spec _ _ _ _ E1) as [Etxt Htxt].
    exists (txt ++ t2)%string. split; [rewrite Etxt; flatten; reflexivity|].
    apply content_chardata; [|exact Ht2].
    unfold is_chardata. rewrite Htxt, Hb1, Hb2.
    destruct txt as [|x txt]; [|reflexivity].
    exfalso. cbn [span] in E1. unfold starts_with in H3. cbn [drop_prefix] in H3.
    destruct (negb (code c =? 60)%N) eqn:Hc.
    + destruct (span _ s) in E1. discriminate E1.
    + apply negb_false_iff, N.eqb_eq in Hc.
      assert (c = "<"%char) as -> by (apply (f_equal ascii_of_N) in Hc;
        unfold code in Hc; rewrite ascii_N_embedding in Hc; exact Hc).
      discriminate H3.
Qed.

Lemma skip_misc_spec (fuel : nat) (s r : string) :
  skip_misc fuel s = Some r -> exists m, s = (m ++ r)%string /\ misc_in m.
Proof.
  revert s r. induction fuel as [|fuel IH]; intros s r E; [discriminate|].
  cbn [skip_misc] in E. destruct (skip_space_spec s) as (ws & Es & Hws).
  destruct (starts_with "<!--" (skip_space s)).
  - destruct (drop_prefix "<!--" (skip_space s)) as [s2|] eqn:E2; [|discriminate].
    apply drop_prefix_spec in E2. rewrite E2 in Es. clear E2.
    cbn [mbind option_bind] in E.
    destruct (parse_comment s2) as [[body s3]|] eqn:E3; [|discriminate].
    apply parse_comment_spec in E3 as [-> Hb]. cbn [mbind option_bind] in E.
    apply IH in E as (m & -> & Hm).
    exists (ws ++ "<!--" ++ body ++ "-->" ++ m)%string.
    split; [rewrite Es; flatten; reflexivity|]. apply misc_comment; assumption.
  - injection E as <-. exists ws. split; [exact Es | apply misc_blank, Hws].
Qed.

Lemma parse_declaration_spec (s : string) attrs (r : string) :
  parse_declaration s = Some (attrs, r) ->
  exists t, s = (t ++ r)%string /\ declaration_in attrs t.
Proof.
  unfold parse_declaration. destruct (drop_prefix "<?xml" s) as [s1|] eqn:E1.
  - apply drop_prefix_spec in E1 as ->.
    destruct (parse_attributes _ s1) as [[attrs' s2]|] eqn:E2; [|discriminate].
    apply parse_attributes_spec in E2 as (t & -> & Ht). cbn [mbind option_bind].
    destruct (drop_prefix "?>" s2) as [rest|] eqn:E3; [|discriminate].
    apply drop_prefix_spec in E3 as ->. cbn [mbind option_bind]. intros E.
    destruct (bool_decide (attrs'.*1 ∈ declaration_names)) eqn:Hin; [|discriminate].
    destruct (forallb declaration_value attrs') eqn:Hval; [|discriminate].
    apply bool_decide_eq_true in Hin.
    cbn [andb] in E. injection E as <- <-.
    exists ("<?xml" ++ t ++ "?>")%string. split; [flatten; reflexivity|].
    apply declaration_present; [assumption | assumption |].
    apply List.Forall_forall. exact (proj1 (forallb_forall _ _) Hval).
  - intros E. injection E as <- <-. exists ""%string.
    split; [reflexivity | apply declaration_absent].
Qed.

(** Soundness of the reader. *)
Theorem parse_document_sound (s : string) (d : document) :
  parse_document s = Some d -> document_in d s.
Proof.
  unfold parse_document. intros E.
  destruct (parse_declaration s) as [[decl s1]|] eqn:E1; [|discriminate].
  apply parse_declaration_spec in E1 as (dt & -> & Hdt). cbn [mbind option_bind] in E.
  destruct (skip_misc _ s1) as [s2|] eqn:E2; [|discriminate].
  apply skip_misc_spec in E2 as (m1 & -> & Hm1). cbn [mbind option_bind] in E.
  destruct (parse_element _ s2) as [[e s3]|] eqn:E3; [|discriminate].
  apply (proj1 (parse_tree_spec _)) in E3 as (et & -> & He). cbn [mbind option_bind] in E.
  destruct (skip_misc _ s3) as [s4|] eqn:E4; [|discriminate].
  apply skip_misc_spec in E4 as (m2 & -> & Hm2). cbn [mbind option_bind] in E.
  destruct s4; [|discriminate]. injection E as <-.
  rewrite append_empty_r. apply document_parts; assumption.
Qed.

End GrammarFacts.

(** ** What a call leaves behind *)

Section Runs.
Context {F : Type} `{Number F}.

Lemma path_join_inj (d : path) (a b : string) : path_join d a = path_join d b -> a = b.
Proof.
  unfold path_join. intros E. apply app_inv_head in E. congruence.
Qed.

Lemma png_svg_distinct (dir : path) : png_path dir <> svg_path dir.
Proof.
  intros E. apply path_join_inj in E. discriminate E.
Qed.

(** With the literal [COLORS] the raster function returns normally, writes
    the PNG file and nothing else, and closes the figure. *)
Lemma raster_run (has : bool) (dir : path) (w : World F) :
  exists fg opts,
    raster_artifact = Some (PngImage fg opts) /\
    generate_og_image_matplotlib (globals has dir) w =
      (inr tt,
       {| files := <[png_path dir := PngImage fg opts]> (files w);
          stdout := stdout w ++ [("Generated: " ++ path_str (png_path dir))%string];
          gcf := None;
          platform := platform w |}).
Proof.
  destruct w as [fs out cf pf].
  eexists. eexists. split.
  - vm_compute. reflexivity.
  - vm_compute. reflexivity.
Qed.

Lemma painted_artifact :
  exists fg opts, raster_artifact = Some (PngImage fg opts) /\ painted fg.
Proof.
  destruct (raster_run true [] empty_world) as (fg & opts & Ha & _).
  exists fg, opts. split; [exact Ha|].
  intros has dir w.
  destruct (raster_run has dir w) as (fg' & opts' & Ha' & Hrun).
  rewrite Ha in Ha'. injection Ha' as <- <-.
  unfold raster_figure. rewrite Hrun. cbn [snd files].
  rewrite lookup_insert_eq. reflexivity.
Qed.

(** The vector function opens its file, then either writes the bytes of
    the card and prints the path, or raises at the write and leaves the file
    empty. *)
Lemma svg_run (g : Globals) (w : World F) :
  generate_og_image_svg g w =
    match svg_bytes (platform w) with
    | Some b =>
        (inr tt,
         {| files := <[svg_path (OUTPUT_DIR g) := FileBytes b]> (files w);
            stdout := stdout w
                      ++ [("Generated: " ++ path_str (svg_path (OUTPUT_DIR g)))%string];
            gcf := gcf w;
            platform := platform w |})
    | None =>
        (inl UnicodeEncodeError,
         {| files := <[svg_path (OUTPUT_DIR g) := FileBytes ""]> (files w);
            stdout := stdout w;
            gcf := gcf w;
            platform := platform w |})
    end.
Proof.
  unfold generate_og_image_svg, bind, open_for_writing, write_text, write_file, print,
    raise, svg_bytes, svg_path.
  cbn [platform files stdout gcf].
  destruct (text_bytes (platform w) (characters svg_content)); [|reflexivity].
  cbn [platform files stdout gcf]. rewrite insert_insert_eq. reflexivity.
Qed.


End Runs.

(** ** Orchestration *)

Section Orchestration.
Context {F : Type} `{Number F}.

Lemma main_without_backend (dir : path) (w : World F) :
  main (globals false dir) w =
    match svg_bytes (platform w) with
    | Some b =>
        (inr tt,
         {| files := <[svg_path dir := FileBytes b]> (files w);
            stdout := stdout w
                      ++ ["Generating Open Graph image (1200x630)...";
                          ("Generated: " ++ path_str (svg_path dir))%string]
                      ++ completion_notes;
            gcf := gcf w;
            platform := platform w |})
    | None =>
        (inl UnicodeEncodeError,
         {| files := <[svg_path dir := FileBytes ""]> (files w);
            stdout := stdout w ++ ["Generating Open Graph image (1200x630)..."];
            gcf := gcf w;
            platform := platform w |})
    end.
Proof.
  destruct w as [fs out cf pf]. unfold main, bind, print, ret.
  cbn beta iota delta [HAS_MATPLOTLIB globals].
  rewrite svg_run. cbn beta iota delta [platform].
  destruct (svg_bytes pf); cbn beta iota delta [files stdout gcf platform OUTPUT_DIR globals];
    repeat rewrite <- app_assoc; reflexivity.
Qed.

Lemma main_with_backend (dir : path) (w : World F) :
  exists fg opts,
    raster_artifact = Some (PngImage fg opts) /\
    main (globals true dir) w =
      match svg_bytes (platform w) with
      | Some b =>
          (inr tt,
           {| files := <[svg_path dir := FileBytes b]>
                         (<[png_path dir := PngImage fg opts]> (files w));
              stdout := stdout w
                        ++ ["Generating Open Graph image (1200x630)...";
                            ("Generated: " ++ path_str (png_path dir))%string;
                            ("Generated: " ++ path_str (svg_path dir))%string]
                        ++ completion_notes;
              gcf := None;
              platform := platform w |})
      | None =>
          (inl UnicodeEncodeError,
           {| files := <[svg_path dir := FileBytes ""]>
                         (<[png_path dir := PngImage fg opts]> (files w));
              stdout := stdout w
                        ++ ["Generating Open Graph image (1200x630)...";
                            ("Generated: " ++ path_str (png_path dir))%string];
              gcf := None;
              platform := platform w |})
      end.
Proof.
  destruct w as [fs out cf pf].
  set (w1 := {| files := fs;
                stdout := out ++ ["Generating Open Graph image (1200x630)..."];
                gcf := cf;
                platform := pf |}).
  destruct (raster_run true dir w1) as (fg & opts & Ha & Hrun).
  exists fg, opts. split; [exact Ha|].
  unfold main, bind, print, ret.
  change (HAS_MATPLOTLIB (globals true dir)) with true.
  cbn beta iota delta [files stdout gcf platform].
  fold w1. rewrite Hrun.
  rewrite svg_run. cbn beta iota delta [platform w1].
  destruct (svg_bytes pf);
    cbn beta iota delta [files stdout gcf platform OUTPUT_DIR globals w1];
    repeat rewrite <- app_assoc; reflexivity.
Qed.

(** [main] with the literal dictionary ends as the vector function does;
    the vector file is written on top of what the raster function wrote, and
    without the backend the PNG path is not touched. *)
Lemma main_leaves (has : bool) (dir : path) (w : World F) :
  fst (main (globals has dir) w) = vector_result (platform w) /\
  dom (files (snd (main (globals has dir) w)))
    = (if has then {[png_path dir; svg_path dir]} else {[svg_path dir]}) ∪ dom (files w) /\
  files (snd (main (globals has dir) w)) !! svg_path dir = Some (vector_file (platform w)) /\
  (has = false ->
   files (snd (main (globals has dir) w)) !! png_path dir = files w !! png_path dir).
Proof.
  unfold vector_result, vector_file. destruct has.
  - destruct (main_with_backend dir w) as (fg & opts & Ha & ->).
    destruct (svg_bytes (platform w)); cbn [fst snd files default];
      (split; [reflexivity|]);
      (split; [rewrite !dom_insert_L; apply set_eq; intros x;
               rewrite !elem_of_union, !elem_of_singleton; tauto|]);
      (split; [apply lookup_insert_eq | discriminate]).
  - rewrite main_without_backend.
    destruct (svg_bytes (platform w)); cbn [fst snd files default];
      (split; [reflexivity|]);
      (split; [apply dom_insert_L|]);
      (split; [apply lookup_insert_eq|]); intros _;
      apply lookup_insert_ne; intros E; exact (png_svg_distinct _ (eq_sym E)).
Qed.

(** Without numpy the module body stops at line 7. *)
Lemma script_without_numpy (e : Env) (w : World F) :
  importable e "numpy" = false -> script e w = (inl (ImportError "numpy"), w).
Proof.
  intros Hn. unfold script, bind, import. rewrite Hn. reflexivity.
Qed.

(** With numpy, the guarded imports decide [HAS_MATPLOTLIB] and [main]
    runs; the notice is printed when they fail. *)
Lemma script_with_numpy (e : Env) (w : World F) :
  importable e "numpy" = true ->
  script e w =
    main (globals (matplotlib_importable e) (script_dir e))
         (if matplotlib_importable e then w
          else snd (print "matplotlib not available, generating SVG fallback" w)).
Proof.
  intros Hn. destruct w as [fs out cf pf].
  unfold script, matplotlib_importable, try_except_ImportError, import.
  unfold bind at 1. rewrite Hn. unfold ret at 1. cbv beta iota.
  unfold bind at 1.
  destruct (importable e "matplotlib.pyplot"), (importable e "matplotlib.patches");
    reflexivity.
Qed.

(** A run with numpy present, on a platform whose encoding has every
    character of the card, ends with status 0 and the vector file in place;
    when matplotlib is missing that file is the only one written. *)
Lemma run_with_numpy (e : Env) (w : World F) (b : string) :
  importable e "numpy" = true ->
  svg_bytes (platform w) = Some b ->
  fst (run e w) = 0%Z /\
  files (snd (run e w)) !! svg_path (script_dir e) = Some (FileBytes b) /\
  (matplotlib_importable e = false ->
   files (snd (run e w)) = <[svg_path (script_dir e) := FileBytes b]> (files w)).
Proof.
  intros Hn Hb. unfold run. rewrite (script_with_numpy e w Hn).
  destruct (matplotlib_importable e).
  - destruct (main_with_backend (script_dir e) w) as (fg & opts & _ & ->).
    rewrite Hb. cbn [fst snd files]. rewrite lookup_insert_eq. repeat split. discriminate.
  - rewrite main_without_backend. cbn [snd platform print]. rewrite Hb.
    cbn [fst snd files]. rewrite lookup_insert_eq. repeat split.
Qed.

(** With numpy and matplotlib present, the PNG file of a run holds the
    painted figure. *)
Lemma run_paints (e : Env) (w : World F) :
  importable e "numpy" = true ->
  matplotlib_importable e = true ->
  exists fg, painted fg /\ raster_figure (script_dir e) (snd (run e w)) = Some fg.
Proof.
  intros Hn Hm. unfold run. rewrite (script_with_numpy e w Hn), Hm.
  destruct (main_with_backend (script_dir e) w) as (fg & opts & Ha & ->).
  destruct painted_artifact as (fg' & opts' & Ha' & Hp).
  rewrite Ha in Ha'. injection Ha' as <- <-.
  exists fg. split; [exact Hp|].
  unfold raster_figure.
  destruct (svg_bytes (platform w)); cbn [snd files];
    (rewrite lookup_insert_ne by (intros E; symmetry in E; exact (png_svg_distinct _ E)));
    rewrite lookup_insert_eq; reflexivity.
Qed.

End Orchestration.

(** C1, at the input where the script departs from it.  The fallback is
    meant for an interpreter without matplotlib, but numpy is imported
    outside the guard: where neither package is installed the run ends at
    line 7 with status 1 and writes nothing, the vector file included. *)
Theorem fallback_unreached_without_numpy (dir : path) (w : World float) :
  matplotlib_importable (bare_python dir) = false /\
  run (bare_python dir) w = (1%Z, w) /\
  files (snd (run (bare_python dir) w)) !! svg_path dir = files w !! svg_path dir.
Proof.
  assert (E : run (bare_python dir) w = (1%Z, w)).
  { unfold run. rewrite script_without_numpy by reflexivity. reflexivity. }
  split; [reflexivity|]. split; [exact E | rewrite E; reflexivity].
Qed.

(** The fallback as intended: numpy present, matplotlib absent, and a
    platform whose encoding has every character of the card. *)
Lemma fallback_with_numpy (dir : path) (w : World float) (b : string) :
  svg_bytes (platform w) = Some b ->
  fst (run (numpy_only dir) w) = 0%Z /\
  files (snd (run (numpy_only dir) w)) = <[svg_path dir := FileBytes b]> (files w).
Proof.
  intros Hb.
  destruct (run_with_numpy (numpy_only dir) w b) as (H0 & _ & H2);
    [reflexivity | exact Hb |].
  split; [exact H0 | apply H2; reflexivity].
Qed.

(** Replaces the figure of [painted_artifact] by its value. *)
Ltac card fg :=
  let opts := fresh "opts" in
  let Ha := fresh "Ha" in
  let Hp := fresh "Hp" in
  lazymatch goal with
  | |- exists _ : Figure ?T, _ =>
      destruct (@painted_artifact T _) as (fg & opts & Ha & Hp)
  end;
  exists fg; split; [exact Hp | clear Hp];
  vm_compute in Ha; injection Ha as <- <-.

(** The decimal literals of the script, read by [float_of_Q], are the
    binary64 values CPython reads. *)
#[local] Set Warnings "-inexact-float".
Lemma literals_as_binary64 :
  map float_of_Q [0.02; 0.5; 6.3; 5.8; 3.6; 2.9; 0.8; 0.1; 0.4; 0.15; 0.3; 0.7; 1.3; 0.2]%Q
  = [0.02; 0.5; 6.3; 5.8; 3.6; 2.9; 0.8; 0.1; 0.4; 0.15; 0.3; 0.7; 1.3; 0.2]%float.
Proof. vm_compute. reflexivity. Qed.
#[local] Set Warnings "+inexact-float".

(** ** The markup as text *)

(** The text has 3293 bytes; it holds 268 double quotes and no apostrophe,
    so the template spells it without loss. *)
Example svg_content_size :
  String.length svg_content = 3293%nat /\
  length (List.filter (Ascii.eqb double_quote) (list_ascii_of_string svg_content)) = 268%nat /\
  List.filter (Ascii.eqb apostrophe) (list_ascii_of_string svg_content) = [] /\
  List.filter (Ascii.eqb double_quote) (list_ascii_of_string svg_template) = [].
Proof. repeat split; vm_compute; reflexivity. Qed.

(** ** The reader on small texts *)

Example reader_accepts :
  Xml.parse_document "<a x='1'><b/>t<!-- c --></a>"
  = Some {| Xml.declaration := [];
            Xml.root := Xml.Element "a" [("x", "1")]
                          [Xml.Element "b" [] []; Xml.CharData "t"; Xml.Comment " c "] |}.
Proof. vm_compute. reflexivity. Qed.

Example reader_refuses :
  map Xml.parse_document
    ["<a><b></a></b>"; "<a x='1' x='2'/>"; "<a/><b/>"; "<a>"; "<a>&</a>";
     "<a x='1'y='2'/>"; "<a x=1/>"; "<a><!-- -- --></a>"; " <?xml version='1.0'?><a/>";
     "<a x='<'/>"; "</a>"; "text"]
  = [None; None; None; None; None; None; None; None; None; None; None; None].
Proof. vm_compute. reflexivity. Qed.

(** The declaration is checked by value as well as by name. *)
Example reader_on_declarations :
  map (fun s => Xml.declaration <$> Xml.parse_document s)
    ["<?xml version='1.0' encoding='UTF-8'?><a/>";
     "<?xml version='1.1' encoding='utf-8' standalone='no'?><a/>";
     "<?xml version='banana'?><a/>";
     "<?xml version='2.0'?><a/>";
     "<?xml version='1.0' encoding='8bit'?><a/>";
     "<?xml version='1.0' standalone='maybe'?><a/>";
     "<?xml encoding='UTF-8'?><a/>";
     "<?xml version='1.0' standalone='yes' encoding='UTF-8'?><a/>"]
  = [Some [("version", "1.0"); ("encoding", "UTF-8")];
     Some [("version", "1.1"); ("encoding", "utf-8"); ("standalone", "no")];
     None; None; None; None; None; None].
Proof. vm_compute. reflexivity. Qed.

(** ** The vector artifact *)

(** The text of the card has three characters outside ASCII, an en dash
    and two bullets; written back as UTF-8 it is the literal of the script,
    byte for byte. *)
Example svg_content_characters :
  length (characters svg_content) = 3287%nat /\
  List.filter (fun c => (127 <? c)%N) (characters svg_content) = [8211; 8226; 8226]%N /\
  utf_8 (characters svg_content) = Some svg_content /\
  length (List.filter (N.eqb 10) (characters svg_content)) = 72%nat.
Proof. repeat split; vm_compute; reflexivity. Qed.

(** The bytes the vector file receives on four platforms. *)
Example svg_bytes_by_platform :
  svg_bytes posix_utf8 = Some svg_content /\
  (String.length <$> svg_bytes windows_utf8) = Some 3365%nat /\
  (String.length <$> svg_bytes windows_cp1252) = Some 3359%nat /\
  svg_bytes posix_ascii = None.
Proof. repeat split; vm_compute; reflexivity. Qed.

Section Vector.
Context {F : Type} `{Number F}.

(** Where the locale encoding is UTF-8, under either line separator, the
    vector function returns normally and its file is well-formed markup --
    valid UTF-8 text, as its declaration says, that the grammar derives as
    one document and the reader accepts as such -- whose root element is
    [svg] with [width] 1200 and [height] 630. *)
Lemma vector_artifact_well_formed_utf8 (has : bool) (dir : path) (w : World F) :
  locale_encoding (platform w) = utf_8 ->
  linesep (platform w) = newline \/ linesep (platform w) = (carriage_return ++ newline)%string ->
  exists b d,
    fst (generate_og_image_svg (globals has dir) w) = inr tt /\
    files (snd (generate_og_image_svg (globals has dir) w)) !! svg_path dir
      = Some (FileBytes b) /\
    Xml.utf8_valid b = true /\
    Grammar.document_in d b /\
    Xml.parse_document b = Some d /\
    Xml.declared_encoding d = "UTF-8" /\
    Xml.is_element "svg" (Xml.root d) = true /\
    Xml.attribute "width" (Xml.root d) = Some "1200" /\
    Xml.attribute "height" (Xml.root d) = Some "630".
Proof.
  intros Henc Hsep. rewrite svg_run. cbn [OUTPUT_DIR globals].
  assert (Hpf : platform w = posix_utf8 \/ platform w = windows_utf8).
  { destruct (platform w) as [enc sep]. cbn in Henc, Hsep. subst enc.
    destruct Hsep as [-> | ->]; [left | right]; reflexivity. }
  destruct Hpf as [-> | ->].
  - destruct (svg_bytes posix_utf8) as [b|] eqn:Hb; [|vm_compute in Hb; discriminate Hb].
    exists b. cbn [fst snd files]. rewrite lookup_insert_eq.
    destruct (Xml.parse_document b) as [d|] eqn:Hd.
    + exists d. pose proof (GrammarFacts.parse_document_sound _ _ Hd) as Hg.
      vm_compute in Hb. injection Hb as <-.
      vm_compute in Hd. injection Hd as <-.
      split; [reflexivity|]. split; [reflexivity|]. split; [vm_compute; reflexivity|].
      split; [exact Hg|]. repeat split; vm_compute; reflexivity.
    + vm_compute in Hb. injection Hb as <-. vm_compute in Hd. discriminate Hd.
  - destruct (svg_bytes windows_utf8) as [b|] eqn:Hb; [|vm_compute in Hb; discriminate Hb].
    exists b. cbn [fst snd files]. rewrite lookup_insert_eq.
    destruct (Xml.parse_document b) as [d|] eqn:Hd.
    + exists d. pose proof (GrammarFacts.parse_document_sound _ _ Hd) as Hg.
      vm_compute in Hb. injection Hb as <-.
      vm_compute in Hd. injection Hd as <-.
      split; [reflexivity|]. split; [reflexivity|]. split; [vm_compute; reflexivity|].
      split; [exact Hg|]. repeat split; vm_compute; reflexivity.
    + vm_compute in Hb. injection Hb as <-. vm_compute in Hd. discriminate Hd.
Qed.

(** C2, at the inputs where the script departs from it.  Line 210 opens
    the file with the locale's encoding although the markup declares UTF-8
    and holds an en dash and two bullets.  On Windows with code page 1252 the
    call returns normally and leaves 3359 bytes that name UTF-8 as their
    encoding and are not UTF-8, which no XML reader may accept.  In the C
    locale the write raises [UnicodeEncodeError]: the file is left empty,
    which is no document, the path is not printed, and a run ends with
    status 1 where it would otherwise have ended with 0. *)
Theorem vector_artifact_ill_formed (has : bool) (dir : path) (w : World F) :
  (exists b d,
     fst (generate_og_image_svg (globals has dir) (on_platform windows_cp1252 w)) = inr tt /\
     files (snd (generate_og_image_svg (globals has dir) (on_platform windows_cp1252 w)))
       !! svg_path dir = Some (FileBytes b) /\
     String.length b = 3359%nat /\
     Xml.parse_document b = Some d /\
     Xml.declared_encoding d = "UTF-8" /\
     Xml.utf8_valid b = false) /\
  (fst (generate_og_image_svg (globals has dir) (on_platform posix_ascii w))
     = inl UnicodeEncodeError /\
   files (snd (generate_og_image_svg (globals has dir) (on_platform posix_ascii w)))
     !! svg_path dir = Some (FileBytes "") /\
   stdout (snd (generate_og_image_svg (globals has dir) (on_platform posix_ascii w)))
     = stdout w /\
   Xml.parse_document "" = None /\
   fst (run (numpy_only dir) (on_platform posix_ascii w)) = 1%Z /\
   fst (run (full_python dir) (on_platform posix_ascii w)) = 1%Z) /\
  locale_encoding windows_cp1252 (characters "–•") = Some (byte_string [150; 149]%N) /\
  locale_encoding posix_ascii (characters "–•") = None.
Proof.
  split; [|split; [|split]].
  - rewrite svg_run. cbn [OUTPUT_DIR globals platform on_platform].
    destruct (svg_bytes windows_cp1252) as [b|] eqn:Hb; [|vm_compute in Hb; discriminate Hb].
    exists b. cbn [fst snd files on_platform]. rewrite lookup_insert_eq.
    vm_compute in Hb. injection Hb as <-.
    eexists. split; [reflexivity|]. split; [reflexivity|].
    split; [vm_compute; reflexivity|]. split; [vm_compute; reflexivity|].
    split; vm_compute; reflexivity.
  - assert (Hb : svg_bytes posix_ascii = None) by (vm_compute; reflexivity).
    rewrite svg_run. cbn [OUTPUT_DIR globals platform on_platform]. rewrite Hb.
    cbn [fst snd files stdout on_platform]. rewrite lookup_insert_eq.
    split; [reflexivity|]. split; [reflexivity|]. split; [reflexivity|].
    split; [vm_compute; reflexivity|].
    unfold run. rewrite !script_with_numpy by reflexivity.
    change (matplotlib_importable (numpy_only dir)) with false.
    change (matplotlib_importable (full_python dir)) with true.
    cbn [script_dir numpy_only full_python].
    destruct (main_leaves false dir
                (snd (print "matplotlib not available, generating SVG fallback"
                        (on_platform posix_ascii w)))) as (E1 & _).
    destruct (main_leaves true dir (on_platform posix_ascii w)) as (E2 & _).
    cbn [snd print platform on_platform] in E1, E2.
    unfold vector_result in E1, E2. rewrite Hb in E1, E2.
    destruct (main (globals false dir) _) as [[x|x] w1];
      destruct (main (globals true dir) _) as [[y|y] w2];
      cbn [fst] in E1, E2; try discriminate; split; reflexivity.
  - vm_compute. reflexivity.
  - vm_compute. reflexivity.
Qed.


(** C9.  The vector function does not read [COLORS]: with two different
    dictionaries it returns the same result and leaves the same world.  The
    five colours it shares with the literal dictionary stand in the markup
    as text. *)
Theorem vector_output_ignores_colors
    (has : bool) (dir : path) (c1 c2 : gmap string string) (w : World F) :
  generate_og_image_svg {| HAS_MATPLOTLIB := has; OUTPUT_DIR := dir; COLORS := c1 |} w
    = generate_og_image_svg {| HAS_MATPLOTLIB := has; OUTPUT_DIR := dir; COLORS := c2 |} w /\
  forallb (fun k =>
             match COLORS_literal !! k with
             | Some v => Xml.contains v svg_content
             | None => false
             end)
          ["primary"; "primary_dark"; "accent"; "dark"; "white"] = true.
Proof.
  split.
  - rewrite !svg_run. reflexivity.
  - vm_compute. reflexivity.
Qed.

End Vector.



(** The raster function does read [COLORS]: without the key it fails. *)
Lemma raster_reads_colors (dir : path) :
  fst (generate_og_image_matplotlib
         {| HAS_MATPLOTLIB := true; OUTPUT_DIR := dir; COLORS := ∅ |}
         (empty_world : World float))
  = inl (KeyError "dark").
Proof. vm_compute. reflexivity. Qed.

(** ** The raster artifact *)

(** What the script asks of matplotlib when it encodes the figure: a
    12 by 6.3 inch figure at 100 dots per inch, hence 1200 by 630 before
    [bbox_inches='tight'] crops to the drawn extent; the dark colour of the
    dictionary, a plain RGB triple, passed as [facecolor]; no padding.  The
    pixels that come out are matplotlib's. *)
Lemma raster_request :
  exists (fg : Figure float) (opts : SaveOpts),
    raster_artifact = Some (PngImage fg opts) /\
    figsize fg = (of_int 12, lit 6.3) /\
    fig_dpi fg = 100%Z /\
    (fst (figsize fg) * of_int (fig_dpi fg), snd (figsize fg) * of_int (fig_dpi fg))%num
      = (of_int 1200, of_int 630) /\
    fig_facecolor fg = Some "#1a1a1a" /\
    opts = {| save_dpi := 100; save_facecolor := "#1a1a1a";
              bbox_inches := "tight"; pad_inches := 0 |} /\
    COLORS_literal !! "dark" = Some "#1a1a1a".
Proof.
  destruct (@painted_artifact float _) as (fg & opts & Ha & _).
  exists fg, opts. split; [exact Ha|].
  vm_compute in Ha. injection Ha as <- <-.
  repeat split; vm_compute; reflexivity.
Qed.

(** C6.  The raster function paints twenty rectangles of the primary
    colour first, each spanning the axes limits (0..12 by 0..6.3).  Their
    opacities fall strictly with the layer index along a straight line: layer
    [i] has opacity [0.02 * (20 - i) / 20 * 0.5], which in binary64 lies
    within 10^-17 of [0.01 - 0.0005 i], so that neighbours differ by 0.0005 up
    to rounding.  The line starts at the maximum 0.01 on layer 0 and is zero
    at index 20, the number of layers: the last layer painted, 19, has
    opacity 0.0005 and every layer is above zero.  In exact arithmetic the
    steps are equal. *)
Theorem vignette_layers :
  (exists fg : Figure float, painted fg /\
     take 20 (artists fg) = List.filter is_rectangle (artists fg) /\
     length (layer_alphas fg) = 20%nat /\
     forallb (spans_axes fg "#2E86AB") (take 20 (artists fg)) = true /\
     decreasing (layer_alphas fg) = true /\
     layer_alphas fg = map layer_opacity (range 20) /\
     forallb (fun i => near (1 # 10 ^ 17) (layer_opacity i) (0.01 - 0.0005 * inject_Z i))
             (range 21) = true /\
     forallb (fun d => near (1 # 10 ^ 17) d (- 0.0005)) (gaps (layer_alphas fg)) = true /\
     layer_opacity 20 = (of_int 0 : float) /\
     same_numbers (take 1 (layer_alphas fg)) [lit 0.01] = true /\
     same_numbers (drop 19 (layer_alphas fg)) [lit 0.0005] = true /\
     above (of_int 0) (layer_alphas fg) = true) /\
  (exists fg : Figure Q, painted fg /\
     take 20 (artists fg) = List.filter is_rectangle (artists fg) /\
     forallb (spans_axes fg "#2E86AB") (take 20 (artists fg)) = true /\
     same_numbers (layer_alphas fg)
       (map (fun i => (lit 0.01 - of_int i * lit 0.0005)%num) (range 20)) = true /\
     decreasing (layer_alphas fg) = true /\
     above (of_int 0) (layer_alphas fg) = true) /\
  COLORS_literal !! "primary" = Some "#2E86AB".
Proof.
  split; [|split].
  - card fg. repeat split; vm_compute; reflexivity.
  - card fg. repeat split; vm_compute; reflexivity.
  - vm_compute. reflexivity.
Qed.


(** *** The trend curve *)

(** The growth function is convex: its value at a midpoint is below the
    mean of the values at the ends. *)
Lemma growth_midpoint_convex (a b : Q) :
  (growth ((a + b) / 2) <= (growth a + growth b) / 2)%Q.
Proof.
  unfold growth. cbn [lit of_int fadd fmul exact].
  assert (E : ((inject_Z 1 + a * 0.8 + 0.1 * (a * a)
                + (inject_Z 1 + b * 0.8 + 0.1 * (b * b))) / 2
               - (inject_Z 1 + (a + b) / 2 * 0.8 + 0.1 * ((a + b) / 2 * ((a + b) / 2)))
               == 0.025 * ((a - b) * (a - b)))%Q) by (unfold inject_Z; field).
  assert (S : forall x : Q, (0 <= x * x)%Q) by (intros x; nra).
  specialize (S (a - b)%Q). lra.
Qed.

(** It is a quadratic with a positive leading coefficient. *)
Lemma growth_quadratic (t : Q) : (growth t == 0.1 * t ^ 2 + 0.8 * t + 1)%Q.
Proof.
  unfold growth. cbn [lit of_int fadd fmul exact]. unfold inject_Z. ring.
Qed.

(** It grows from time zero on. *)
Lemma growth_increasing (a b : Q) : (0 <= a)%Q -> (a < b)%Q -> (growth a < growth b)%Q.
Proof.
  intros Ha Hab. rewrite !growth_quadratic. nra.
Qed.

(** C7.  The chart is drawn last: a band between 0.7 and 1.3 times the
    curve in the primary colour at opacity 0.2, then the curve itself in the
    accent colour.  The curve has 50 samples over the strictly increasing
    times 0..5, follows the convex quadratic [growth], and is scaled and
    shifted to run from (0.5, 0.45) to (2.5, 1.425). *)
Theorem trend_curve :
  (exists fg : Figure float, painted fg /\
     top_two fg = [FillBetween chart_x band_lower band_upper "#2E86AB" (lit 0.2);
                   Line2D chart_x chart_y "#F18F01" 2] /\
     length (years : list float) = 50%nat /\
     increasing (years : list float) = true /\
     within (of_int 0) (of_int 5) (years : list float) = true /\
     increasing (baseline : list float) = true /\
     convex_samples (baseline : list float) = true /\
     increasing (chart_x : list float) = true /\
     increasing (chart_y : list float) = true /\
     same_numbers (take 1 chart_x) [lit 0.5] = true /\
     same_numbers (drop 49 chart_x) [lit 2.5] = true /\
     same_numbers (drop 49 chart_y) [lit 1.425] = true) /\
  (exists fg : Figure Q, painted fg /\
     top_two fg = [FillBetween chart_x band_lower band_upper "#2E86AB" (lit 0.2);
                   Line2D chart_x chart_y "#F18F01" 2] /\
     length (years : list Q) = 50%nat /\
     increasing (years : list Q) = true /\
     within (of_int 0) (of_int 5) (years : list Q) = true /\
     increasing (baseline : list Q) = true /\
     convex_samples (baseline : list Q) = true /\
     within (lit 0.5) (lit 2.5) (chart_x : list Q) = true /\
     within (lit 0.45) (lit 1.425) (chart_y : list Q) = true /\
     same_numbers [hd 0%Q chart_x; hd 0%Q chart_y] [lit 0.5; lit 0.45] = true /\
     same_numbers (drop 49 chart_x ++ drop 49 chart_y) [lit 2.5; lit 1.425] = true) /\
  (forall t : Q, growth t == 0.1 * t ^ 2 + 0.8 * t + 1)%Q /\
  (forall a b : Q, growth ((a + b) / 2) <= (growth a + growth b) / 2)%Q /\
  (forall a b : Q, 0 <= a -> a < b -> growth a < growth b)%Q /\
  (forall (F : Type) (N : Number F),
     baseline = map growth years /\
     chart_x = map (fun t => (t * lit 0.4 + lit 0.5)%num) years /\
     chart_y = map (fun b => (b * lit 0.15 + lit 0.3)%num) (baseline : list F) /\
     band_lower = map (fun y => (y * lit 0.7)%num) (chart_y : list F) /\
     band_upper = map (fun y => (y * lit 1.3)%num) (chart_y : list F)) /\
  COLORS_literal !! "primary" = Some "#2E86AB" /\
  COLORS_literal !! "accent" = Some "#F18F01".
Proof.
  split; [|split; [|split; [|split; [|split; [|split; [|split]]]]]].
  - card fg. repeat split; vm_compute; reflexivity.
  - card fg. repeat split; vm_compute; reflexivity.
  - exact growth_quadratic.
  - exact growth_midpoint_convex.
  - exact growth_increasing.
  - intros F N. repeat split.
  - vm_compute. reflexivity.
  - vm_compute. reflexivity.
Qed.

(** C10.  Every point of the chart -- the curve and both edges of the
    band, all 50 samples -- has its abscissa in [0.5, 2.5] and its ordinate
    above 0 and at most 1.8525, within the axes limits 0..12 and 0..6.3. *)
Theorem trend_chart_inside_canvas :
  (exists fg : Figure float, painted fg /\
     top_two fg = [FillBetween chart_x band_lower band_upper "#2E86AB" (lit 0.2);
                   Line2D chart_x chart_y "#F18F01" 2] /\
     xlim fg = Some (of_int 0, of_int 12) /\
     ylim fg = Some (of_int 0, lit 6.3) /\
     map length [chart_x; chart_y; band_lower; band_upper] = [50; 50; 50; 50]%nat /\
     within (lit 0.5) (lit 2.5) chart_x = true /\
     forallb (fun l => above (of_int 0) l && within (of_int 0) (lit 1.8525) l)
             [chart_y; band_lower; band_upper] = true /\
     fltb (of_int 0) (lit 0.5) && fltb (lit 2.5) (of_int 12)
       && fltb (lit 1.8525) (lit 6.3) = true) /\
  (exists fg : Figure Q, painted fg /\
     top_two fg = [FillBetween chart_x band_lower band_upper "#2E86AB" (lit 0.2);
                   Line2D chart_x chart_y "#F18F01" 2] /\
     xlim fg = Some (of_int 0, of_int 12) /\
     ylim fg = Some (of_int 0, lit 6.3) /\
     map length [chart_x; chart_y; band_lower; band_upper] = [50; 50; 50; 50]%nat /\
     within (lit 0.5) (lit 2.5) chart_x = true /\
     forallb (fun l => above (of_int 0) l && within (of_int 0) (lit 1.8525) l)
             [chart_y; band_lower; band_upper] = true /\
     fltb (of_int 0) (lit 0.5) && fltb (lit 2.5) (of_int 12)
       && fltb (lit 1.8525) (lit 6.3) = true).
Proof.
  split.
  - card fg. repeat split; vm_compute; reflexivity.
  - card fg. repeat split; vm_compute; reflexivity.
Qed.

(** *** The loop over the secondary statistics, for any list *)

Section StatsLoop.
Context {F : Type} `{Number F}.

Lemma with_more_nil (fg : Figure F) : with_more [] fg = fg.
Proof.
  destruct fg. unfold with_more. cbn. rewrite app_nil_r. reflexivity.
Qed.

Lemma with_more_app (l1 l2 : list (Artist F)) (fg : Figure F) :
  with_more l2 (with_more l1 fg) = with_more (l1 ++ l2) fg.
Proof.
  unfold with_more. cbn. rewrite app_assoc. reflexivity.
Qed.

Lemma on_figure_nil (w : World F) : snd (on_figure (with_more []) w) = w.
Proof.
  destruct w as [fs out [fg|] pf]; cbn; [rewrite with_more_nil|]; reflexivity.
Qed.

Lemma on_figure_app (l1 l2 : list (Artist F)) (w : World F) :
  snd (on_figure (with_more l2) (snd (on_figure (with_more l1) w)))
  = snd (on_figure (with_more (l1 ++ l2)) w).
Proof.
  destruct w as [fs out [fg|] pf]; cbn; [rewrite with_more_app|]; reflexivity.
Qed.

(** The loop never fails when both colours are defined, touches only the
    figure, and adds the two texts of each entry in turn. *)
Lemma stats_loop_run (g : Globals) (accent light : string)
    (entries : list (Z * (string * string))) (w : World F) :
  COLORS g !! "accent" = Some accent ->
  COLORS g !! "light" = Some light ->
  for_each entries (fun '(i, (value, label)) =>
    let x := (lit 5.8 + of_int (i * 2))%num in
    bind (getitem (COLORS g) "accent") (fun accent =>
    bind (add_artist (Text x (lit 3.6) value
      {| fontsize := 24; fontweight := Some "bold"; color := accent;
         ha := "center"; va := "center"; fontfamily := "sans-serif";
         text_alpha := None |})) (fun _ =>
    bind (getitem (COLORS g) "light") (fun light =>
    add_artist (Text x (lit 2.9) label
      {| fontsize := 11; fontweight := None; color := light;
         ha := "center"; va := "center"; fontfamily := "sans-serif";
         text_alpha := Some (lit 0.8) |}))))) w
  = (inr tt, snd (on_figure (with_more (flat_map (stat_texts accent light) entries)) w)).
Proof.
  intros Ha Hl. revert w.
  induction entries as [|[i [value label]] entries IH]; intros w.
  - cbn [for_each flat_map]. rewrite on_figure_nil. reflexivity.
  - cbn [for_each flat_map]. unfold bind at 1.
    unfold bind at 1. unfold getitem at 1. rewrite Ha. unfold ret at 1.
    unfold bind at 1. unfold add_artist at 1.
    change (on_figure (with_more ?l) w) with (inr tt : exn + unit, snd (on_figure (with_more l) w)).
    cbv beta iota.
    unfold bind at 1. unfold getitem at 1. rewrite Hl. unfold ret at 1.
    unfold add_artist at 1.
    match goal with
    | |- context [on_figure (with_more ?l) ?w'] =>
        change (on_figure (with_more l) w')
          with (inr tt : exn + unit, snd (on_figure (with_more l) w'))
    end.
    cbv beta iota. rewrite IH. rewrite !on_figure_app. reflexivity.
Qed.

Lemma secondary_stats_run (has : bool) (dir : path) (l : list (string * string))
    (w : World F) :
  secondary_stats (globals has dir) l w
  = (inr tt,
     snd (on_figure (with_more (flat_map (stat_texts "#F18F01" "#f5f5f5") (enumerate l))) w)).
Proof.
  unfold secondary_stats. apply stats_loop_run; vm_compute; reflexivity.
Qed.

Lemma stat_texts_strings (accent light : string) (entries : list (Z * (string * string))) :
  omap text_string (flat_map (stat_texts accent light) entries)
  = flat_map (fun e => [e.2.1; e.2.2]) entries.
Proof.
  induction entries as [|e entries IH]; [reflexivity|].
  cbn [flat_map]. rewrite omap_app, IH. reflexivity.
Qed.

Lemma enumerate_length {A} (l : list A) : length (enumerate l) = length l.
Proof.
  unfold enumerate, range. rewrite length_zip_with_l_eq; rewrite length_map, length_seq; lia.
Qed.

Lemma enumerate_snd {A} (l : list A) : (enumerate l).*2 = l.
Proof.
  unfold enumerate. apply snd_zip. unfold range. rewrite length_map, length_seq. lia.
Qed.

End StatsLoop.

(** C8.  Given a list of fewer than three entries, the loop returns
    normally, changes nothing but the figure, and adds exactly the texts of
    the entries given, value then label, in order; the entries stand on the
    distinct anchors 5.8 and 7.8, in increasing order. *)
Theorem short_stats_layout
    (has : bool) (dir : path) (l : list (string * string)) (w : World float) :
  length l < 3 ->
  exists added : list (Artist float),
    secondary_stats (globals has dir) l w = (inr tt, snd (on_figure (with_more added) w)) /\
    length added = 2 * length l /\
    omap text_string added = flat_map (fun '(value, label) => [value; label]) l /\
    (texts_at (lit 3.6) added).*2 = l.*1 /\
    (texts_at (lit 2.9) added).*2 = l.*2 /\
    same_numbers (texts_at (lit 3.6) added).*1 (take (length l) [lit 5.8; lit 7.8]) = true /\
    same_numbers (texts_at (lit 2.9) added).*1 (take (length l) [lit 5.8; lit 7.8]) = true /\
    increasing (texts_at (lit 3.6) added).*1 = true.
Proof.
  intros Hlen. eexists. split; [apply secondary_stats_run|].
  destruct l as [|[v1 l1] [|[v2 l2] [|e l]]]; cbn [length] in Hlen; try lia;
    repeat split; vm_compute; reflexivity.
Qed.

(** The loop on a fresh figure with two entries: the figure then holds
    four texts, the two values at height 3.6 and the two labels at 2.9, on
    the anchors 5.8 and 7.8. *)
Example short_stats_on_canvas :
  (artists <$> gcf (snd (secondary_stats (globals true ["assets"])
                           [("5.7x", "Mean"); ("$47T", "Value")]
                           (blank_canvas : World float))))
  = Some [Text (lit 5.8) (lit 3.6) "5.7x"
            {| fontsize := 24; fontweight := Some "bold"; color := "#F18F01";
               ha := "center"; va := "center"; fontfamily := "sans-serif";
               text_alpha := None |};
          Text (lit 5.8) (lit 2.9) "Mean"
            {| fontsize := 11; fontweight := None; color := "#f5f5f5";
               ha := "center"; va := "center"; fontfamily := "sans-serif";
               text_alpha := Some (lit 0.8) |};
          Text (lit 7.8) (lit 3.6) "$47T"
            {| fontsize := 24; fontweight := Some "bold"; color := "#F18F01";
               ha := "center"; va := "center"; fontfamily := "sans-serif";
               text_alpha := None |};
          Text (lit 7.8) (lit 2.9) "Value"
            {| fontsize := 11; fontweight := None; color := "#f5f5f5";
               ha := "center"; va := "center"; fontfamily := "sans-serif";
               text_alpha := Some (lit 0.8) |}].
Proof. vm_compute. reflexivity. Qed.

Lemma short_stats_layout_witness :
  length [("5.7x", "Mean"); ("$47T", "Value")] < 3 /\
  exists added : list (Artist float),
    secondary_stats (globals true ["assets"]) [("5.7x", "Mean"); ("$47T", "Value")]
      blank_canvas
      = (inr tt, snd (on_figure (with_more added) blank_canvas)) /\
    length added = 2 * length [("5.7x", "Mean"); ("$47T", "Value")] /\
    omap text_string added
      = flat_map (fun '(value, label) => [value; label])
                 [("5.7x", "Mean"); ("$47T", "Value")] /\
    (texts_at (lit 3.6) added).*2 = [("5.7x", "Mean"); ("$47T", "Value")].*1 /\
    (texts_at (lit 2.9) added).*2 = [("5.7x", "Mean"); ("$47T", "Value")].*2 /\
    same_numbers (texts_at (lit 3.6) added).*1
      (take (length [("5.7x", "Mean"); ("$47T", "Value")]) [lit 5.8; lit 7.8]) = true /\
    same_numbers (texts_at (lit 2.9) added).*1
      (take (length [("5.7x", "Mean"); ("$47T", "Value")]) [lit 5.8; lit 7.8]) = true /\
    increasing (texts_at (lit 3.6) added).*1 = true.
Proof.
  split.
  - cbn. lia.
  - apply (short_stats_layout true ["assets"] [("5.7x", "Mean"); ("$47T", "Value")]
             blank_canvas).
    cbn. lia.
Defined.

(** * Further properties of the script *)

(** ** Exceptions in sequence *)

Section Sequencing.
Context {F : Type} `{Number F}.

Lemma bind_raises {A B} (c : IO F A) (k : A -> IO F B) (w : World F) (e : exn) :
  fst (c w) = inl e -> bind c k w = (inl e, snd (c w)).
Proof.
  unfold bind. destruct (c w) as [[e'|a] w']; cbn; intros E; congruence.
Qed.

Lemma bind_returns {A B} (c : IO F A) (k : A -> IO F B) (w : World F) (a : A) :
  fst (c w) = inr a -> bind c k w = k a (snd (c w)).
Proof.
  unfold bind. destruct (c w) as [[e'|a'] w']; cbn; intros E; congruence.
Qed.

End Sequencing.

(** ** The raster function under a dictionary with keys missing *)

Section MissingColors.
Context {F : Type} `{Number F}.

(** The raster function, by the keys its dictionary has: the first one
    missing, in the order of use, decides where it stops. *)
Lemma raster_by_keys (has : bool) (dir : path) (c : gmap string string) (w : World F) :
  platform (snd (generate_og_image_matplotlib (globals_with has dir c) w)) = platform w /\
  match first_missing c with
  | Some k =>
      generate_og_image_matplotlib (globals_with has dir c) w
      = (inl (KeyError k),
         snd (generate_og_image_matplotlib (globals_with has dir c) w)) /\
      files (snd (generate_og_image_matplotlib (globals_with has dir c) w)) = files w /\
      stdout (snd (generate_og_image_matplotlib (globals_with has dir c) w)) = stdout w /\
      is_Some (gcf (snd (generate_og_image_matplotlib (globals_with has dir c) w)))
  | None =>
      exists fg opts,
        generate_og_image_matplotlib (globals_with has dir c) w
        = (inr tt,
           {| files := <[png_path dir := PngImage fg opts]> (files w);
              stdout := stdout w ++ [("Generated: " ++ path_str (png_path dir))%string];
              gcf := None;
              platform := platform w |}) /\
        fig_facecolor fg = c !! "dark" /\
        ax_facecolor fg = c !! "dark" /\
        Some (save_facecolor opts) = c !! "dark"
  end.
Proof.
  destruct w as [fs out cf pf].
  unfold first_missing, colour_keys. cbn [first_missing_in].
  unfold generate_og_image_matplotlib, vignette, secondary_stats, trajectory_chart,
    getitem, globals_with. cbn [COLORS].
  destruct (c !! "dark") as [d|] eqn:Ed;
    [|vm_compute; repeat split; eexists; reflexivity].
  destruct (c !! "primary") as [p|] eqn:Ep;
    [|vm_compute; repeat split; eexists; reflexivity].
  destruct (c !! "white") as [wh|] eqn:Ew;
    [|vm_compute; repeat split; eexists; reflexivity].
  destruct (c !! "accent") as [a|] eqn:Ea;
    [|vm_compute; repeat split; eexists; reflexivity].
  destruct (c !! "light") as [l|] eqn:El;
    [|vm_compute; repeat split; eexists; reflexivity].
  split; [vm_compute; reflexivity|].
  eexists. eexists. split; [vm_compute; reflexivity|].
  repeat split.
Qed.


(** The raster function reads no other key: two dictionaries that agree
    on the five keys give the same result in the same world (so ['success'],
    ['warning'] and ['primary_dark'] are never used). *)
Theorem raster_reads_five_keys
    (has : bool) (dir : path) (c1 c2 : gmap string string) (w : World F) :
  Forall (fun k => c1 !! k = c2 !! k) colour_keys ->
  generate_og_image_matplotlib (globals_with has dir c1) w
  = generate_og_image_matplotlib (globals_with has dir c2) w.
Proof.
  intros Hk. unfold colour_keys in Hk.
  repeat (apply Forall_cons in Hk as [? Hk]).
  unfold generate_og_image_matplotlib, vignette, secondary_stats, trajectory_chart,
    getitem, globals_with. cbn [COLORS OUTPUT_DIR].
  repeat match goal with E : c1 !! _ = c2 !! _ |- _ => rewrite E; clear E end.
  reflexivity.
Qed.

(** What follows the raster step in [main]: the vector function, then the
    closing notes when it returned. *)
Lemma main_tail (g : Globals) (w : World F) :
  let r := bind (generate_og_image_svg g)
             (fun _ => bind (print (newline ++ "Done! Use og-image.png for social sharing."))
                (fun _ => print "Update <meta property='og:image'> in index.html to point to the hosted URL."))
             w in
  fst r = vector_result (platform w) /\
  files (snd r) = <[svg_path (OUTPUT_DIR g) := vector_file (platform w)]> (files w).
Proof.
  intros r. subst r. unfold bind. rewrite svg_run.
  unfold vector_result, vector_file.
  destruct (svg_bytes (platform w)); split; reflexivity.
Qed.

(** [main] under such a dictionary.  When the raster function raises, the
    exception leaves [main] at once: the vector function is not called and
    no file is written.  Otherwise -- the raster function returned, or
    [HAS_MATPLOTLIB] is false and the dictionary is never read -- [main] ends
    as the vector function does on the platform, with the vector file
    written: the card where the locale encoding has its characters, an empty
    file and [UnicodeEncodeError] where it does not. *)
Theorem main_outcome (has : bool) (dir : path) (c : gmap string string) (w : World F) :
  c ⊆ COLORS_literal ->
  let r := main (globals_with has dir c) w in
  match (if has then first_missing c else None) with
  | Some k => fst r = inl (KeyError k) /\ files (snd r) = files w
  | None =>
      fst r = vector_result (platform w) /\
      files (snd r) !! svg_path dir = Some (vector_file (platform w))
  end.
Proof.
  intros _ r. subst r. unfold main.
  rewrite (bind_returns _ _ w tt) by reflexivity.
  set (w1 := snd (print "Generating Open Graph image (1200x630)..." w)).
  assert (Hw1 : files w1 = files w) by reflexivity.
  assert (Hp1 : platform w1 = platform w) by reflexivity.
  cbn [HAS_MATPLOTLIB globals_with].
  destruct has.
  - fold (globals_with true dir c).
    destruct (raster_by_keys true dir c w1) as (Hpf & Hr).
    destruct (first_missing c) as [k|].
    + destruct Hr as (E & Hfiles & _).
      rewrite (bind_raises _ _ w1 (KeyError k)) by (rewrite E; reflexivity).
      cbn [fst snd]. split; [reflexivity | congruence].
    + destruct Hr as (fg & opts & E & _).
      rewrite (bind_returns _ _ w1 tt) by (rewrite E; reflexivity).
      destruct (main_tail (globals_with true dir c)
                  (snd (generate_og_image_matplotlib (globals_with true dir c) w1)))
        as (T1 & T2).
      rewrite T1, T2, Hpf, Hp1. cbn [OUTPUT_DIR globals_with].
      split; [reflexivity | apply lookup_insert_eq].
  - rewrite (bind_returns _ _ w1 tt) by reflexivity.
    change (snd (ret tt w1)) with w1.
    fold (globals_with false dir c).
    destruct (main_tail (globals_with false dir c) w1) as (T1 & T2).
    rewrite T1, T2, Hp1. cbn [OUTPUT_DIR globals_with].
    split; [reflexivity | apply lookup_insert_eq].
Qed.

End MissingColors.

Lemma raster_reads_five_keys_witness :
  Forall (fun k => COLORS_literal !! k = delete "success" COLORS_literal !! k) colour_keys /\
  generate_og_image_matplotlib (globals_with true ["assets"] COLORS_literal)
    (empty_world : World float)
  = generate_og_image_matplotlib
      (globals_with true ["assets"] (delete "success" COLORS_literal)) empty_world.
Proof.
  assert (Hk : Forall (fun k => COLORS_literal !! k = delete "success" COLORS_literal !! k)
                      colour_keys)
    by (repeat constructor).
  split; [exact Hk|].
  apply (raster_reads_five_keys true ["assets"] COLORS_literal
           (delete "success" COLORS_literal) empty_world Hk).
Defined.


(** [main] with the backend and without ['accent'], on Windows: the
    exception of the raster function ends [main] before the vector function
    is called, and no file is written. *)
Lemma main_outcome_witness :
  delete "accent" COLORS_literal ⊆ COLORS_literal /\
  fst (main (globals_with true ["assets"] (delete "accent" COLORS_literal))
         (on_platform windows_cp1252 (empty_world : World float)))
    = inl (KeyError "accent") /\
  files (snd (main (globals_with true ["assets"] (delete "accent" COLORS_literal))
                (on_platform windows_cp1252 (empty_world : World float))))
    = files (on_platform windows_cp1252 (empty_world : World float)).
Proof.
  assert (Hc : delete "accent" COLORS_literal ⊆ COLORS_literal) by apply delete_subseteq.
  split; [exact Hc|].
  exact (main_outcome true ["assets"] (delete "accent" COLORS_literal)
           (on_platform windows_cp1252 (empty_world : World float)) Hc).
Defined.

(** ** A run, by what the interpreter can import *)

Section AnyEnvironment.
Context {F : Type} `{Number F}.

Lemma run_cases (e : Env) (w : World F) :
  run e w =
    if importable e "numpy" then
      let r := main (globals (matplotlib_importable e) (script_dir e))
                 (if matplotlib_importable e then w
                  else snd (print "matplotlib not available, generating SVG fallback" w)) in
      (match fst r with inr _ => 0%Z | inl _ => 1%Z end, snd r)
    else (1%Z, w).
Proof.
  unfold run. destruct (importable e "numpy") eqn:Hn.
  - rewrite (script_with_numpy e w Hn). cbv zeta.
    destruct (main _ _) as [[x|x] w']; reflexivity.
  - rewrite (script_without_numpy e w Hn). reflexivity.
Qed.

(** The files after a run are those before it plus the artifacts: both
    with numpy and matplotlib, the vector one alone with numpy only, none
    without numpy.  The two artifacts never share a path, and no file is
    removed. *)
Theorem run_artifacts (e : Env) (w : World F) :
  dom (files (snd (run e w))) = run_paths e ∪ dom (files w) /\
  png_path (script_dir e) <> svg_path (script_dir e).
Proof.
  split; [|apply png_svg_distinct].
  rewrite run_cases. unfold run_paths.
  destruct (importable e "numpy"); [|cbn [snd]; rewrite union_empty_l_L; reflexivity].
  cbv zeta. cbn [snd].
  destruct (matplotlib_importable e).
  - destruct (main_leaves true (script_dir e) w) as (_ & Hdom & _). exact Hdom.
  - destruct (main_leaves false (script_dir e)
                (snd (print "matplotlib not available, generating SVG fallback" w)))
      as (_ & Hdom & _).
    exact Hdom.
Qed.

End AnyEnvironment.

(** ** The loop over the statistics, by list and dictionary *)

Section AnyStats.
Context {F : Type} `{Number F}.

(** Edge behaviour of the loop of lines 89-96, for globals whose
    dictionary is made of entries of the script's own.  On an empty list it
    does nothing and reads no colour.  On a list with a first entry it raises
    [KeyError] for ['accent'] before drawing anything, or for ['light'] after
    the value of the first entry is already drawn; with both colours it
    returns normally, having added the two texts of each entry in turn. *)
Theorem stats_loop_outcome (g : Globals) (l : list (string * string)) (w : World F) :
  COLORS g ⊆ COLORS_literal ->
  let r := secondary_stats g l w in
  match l, COLORS g !! "accent", COLORS g !! "light" with
  | [], _, _ => r = (inr tt, w)
  | _ :: _, None, _ => r = (inl (KeyError "accent"), w)
  | (value, _) :: _, Some accent, None =>
      r = (inl (KeyError "light"),
           snd (add_artist
                  (Text (lit 5.8 + of_int (0 * 2))%num (lit 3.6) value
                     {| fontsize := 24; fontweight := Some "bold"; color := accent;
                        ha := "center"; va := "center"; fontfamily := "sans-serif";
                        text_alpha := None |}) w))
  | _ :: _, Some accent, Some light =>
      r = (inr tt,
           snd (on_figure (with_more (flat_map (stat_texts accent light) (enumerate l))) w))
  end.
Proof.
  intros _ r. subst r. destruct l as [|[value label] l]; [reflexivity|].
  destruct (COLORS g !! "accent") as [accent|] eqn:Ea.
  - destruct (COLORS g !! "light") as [light|] eqn:El.
    + unfold secondary_stats. apply stats_loop_run; assumption.
    + unfold secondary_stats, enumerate, range. cbn [length seq map zip_with for_each].
      unfold bind at 1. unfold bind at 1. unfold getitem at 1. rewrite Ea.
      unfold ret at 1. unfold bind at 1.
      destruct (add_artist _ w) as [[e|[]] w1] eqn:Eadd.
      * unfold add_artist, on_figure in Eadd. discriminate Eadd.
      * unfold bind at 1. unfold getitem at 1. rewrite El.
        unfold raise. unfold add_artist, on_figure in *.
        injection Eadd as <-. reflexivity.
  - unfold secondary_stats, enumerate, range. cbn [length seq map zip_with for_each].
    unfold bind at 1. unfold bind at 1. unfold getitem at 1. rewrite Ea. reflexivity.
Qed.

Lemma stat_texts_length (accent light : string) (entries : list (Z * (string * string))) :
  length (flat_map (stat_texts (F := F) accent light) entries) = 2 * length entries.
Proof.
  induction entries as [|e entries IH]; [reflexivity|].
  cbn [flat_map]. rewrite length_app, IH. cbn [length stat_texts]. lia.
Qed.

Lemma flat_map_snd {A B C} (f : B -> list C) (l : list (A * B)) :
  flat_map (fun e => f e.2) l = flat_map f l.*2.
Proof.
  induction l as [|e l IH]; [reflexivity|]. cbn [flat_map fmap list_fmap]. rewrite IH.
  reflexivity.
Qed.

(** With the literal dictionary the loop handles a list of any length: it
    returns normally, changes nothing but the figure, and adds exactly two
    texts per entry -- its value, then its label -- in the order of the
    list. *)
Theorem stats_loop_any_length
    (has : bool) (dir : path) (l : list (string * string)) (w : World F) :
  exists added : list (Artist F),
    secondary_stats (globals has dir) l w = (inr tt, snd (on_figure (with_more added) w)) /\
    length added = 2 * length l /\
    omap text_string added = flat_map (fun e => [e.1; e.2]) l.
Proof.
  eexists. split; [apply secondary_stats_run|]. split.
  - rewrite stat_texts_length, enumerate_length. reflexivity.
  - rewrite stat_texts_strings.
    rewrite (flat_map_snd (fun e : string * string => [e.1; e.2])), enumerate_snd.
    reflexivity.
Qed.

Lemma map_enumerate_fst {A B} (f : Z -> B) (l : list A) :
  map (fun e => f e.1) (enumerate l) = map f (range (length l)).
Proof.
  unfold enumerate. rewrite <- (fst_zip (range (length l)) l) at 2.
  - rewrite <- list_fmap_compose. reflexivity.
  - unfold range. rewrite length_map, length_seq. lia.
Qed.

Lemma increasing_take (n : nat) (l : list F) :
  increasing l = true -> increasing (take n l) = true.
Proof.
  revert n. induction l as [|a l IH]; intros n Hl; [destruct n; reflexivity|].
  destruct n as [|n]; [reflexivity|].
  destruct l as [|b l]; [destruct n; reflexivity|].
  destruct n as [|n]; [reflexivity|].
  cbn [increasing] in Hl. apply andb_true_iff in Hl as [Hab Hl].
  specialize (IH (S n) Hl).
  change (fltb a b && increasing (take (S n) (b :: l)) = true).
  rewrite Hab, IH. reflexivity.
Qed.

End AnyStats.

(** The loop without ['light'], on a fresh figure: it stops with
    [KeyError] after the first value is drawn. *)
Lemma stats_loop_outcome_witness :
  COLORS (globals_with true ["assets"] (delete "light" COLORS_literal)) ⊆ COLORS_literal /\
  secondary_stats (globals_with true ["assets"] (delete "light" COLORS_literal)) stats
    (blank_canvas : World float)
  = (inl (KeyError "light"),
     snd (add_artist
            (Text (lit 5.8 + of_int (0 * 2))%num (lit 3.6) "5.7x"
               {| fontsize := 24; fontweight := Some "bold"; color := "#F18F01";
                  ha := "center"; va := "center"; fontfamily := "sans-serif";
                  text_alpha := None |}) blank_canvas)).
Proof.
  assert (Hc : COLORS (globals_with true ["assets"] (delete "light" COLORS_literal))
               ⊆ COLORS_literal) by apply delete_subseteq.
  split; [exact Hc|].
  exact (stats_loop_outcome (globals_with true ["assets"] (delete "light" COLORS_literal))
           stats blank_canvas Hc).
Defined.

(** *** Anchors in binary64 *)

Lemma value_anchors (accent light : string) (entries : list (Z * (string * string))) :
  (texts_at (lit 3.6) (flat_map (stat_texts (F := float) accent light) entries)).*1
  = map (fun e => (lit 5.8 + of_int (e.1 * 2))%num) entries.
Proof.
  induction entries as [|e entries IH]; [reflexivity|].
  cbn [flat_map]. unfold texts_at in *. rewrite omap_app, fmap_app, IH. reflexivity.
Qed.

Lemma label_anchors (accent light : string) (entries : list (Z * (string * string))) :
  (texts_at (lit 2.9) (flat_map (stat_texts (F := float) accent light) entries)).*1
  = map (fun e => (lit 5.8 + of_int (e.1 * 2))%num) entries.
Proof.
  induction entries as [|e entries IH]; [reflexivity|].
  cbn [flat_map]. unfold texts_at in *. rewrite omap_app, fmap_app, IH. reflexivity.
Qed.

Lemma stat_anchors_take (n : nat) :
  n <= 1000 -> stat_anchors n = take n (stat_anchors 1000).
Proof.
  intros Hn. unfold stat_anchors, range.
  rewrite <- !fmap_take, take_seq. replace (n `min` 1000) with n by lia. reflexivity.
Qed.

Lemma stat_anchors_increasing (n : nat) : n <= 1000 -> increasing (stat_anchors n) = true.
Proof.
  intros Hn. rewrite (stat_anchors_take n Hn). apply increasing_take.
  vm_compute. reflexivity.
Qed.

(** Four entries still stand inside the axes limits, the fifth does not. *)
Lemma stat_anchors_inside (n : nat) :
  n <= 1000 -> within (of_int 0) (of_int 12) (stat_anchors n) = (n <=? 4)%nat.
Proof.
  intros Hn. destruct (le_lt_dec n 4) as [Hs|Hs].
  - do 5 (destruct n as [|n]; [vm_compute; reflexivity|]). lia.
  - replace (n <=? 4)%nat with false by (symmetry; apply Nat.leb_gt; lia).
    rewrite (stat_anchors_take n Hn).
    rewrite <- (take_drop 5 (take n (stat_anchors 1000))).
    rewrite take_take. replace (5 `min` n) with 5 by lia.
    unfold within. rewrite forallb_app.
    replace (forallb _ (take 5 (stat_anchors 1000))) with false
      by (vm_compute; reflexivity).
    reflexivity.
Qed.

(** In binary64, for a list of up to a thousand entries: the loop returns
    normally, the value and the label of an entry share one anchor, and the
    anchors increase strictly, so no two entries stand on the same spot.  The
    anchors stay within the axes limits 0..12 exactly when the list has at
    most four entries: a fifth is anchored at 13.8, off the canvas. *)
Theorem stats_anchors_any_length
    (has : bool) (dir : path) (l : list (string * string)) (w : World float) :
  length l <= 1000 ->
  exists added : list (Artist float),
    secondary_stats (globals has dir) l w = (inr tt, snd (on_figure (with_more added) w)) /\
    length (texts_at (lit 3.6) added) = length l /\
    (texts_at (lit 2.9) added).*1 = (texts_at (lit 3.6) added).*1 /\
    increasing (texts_at (lit 3.6) added).*1 = true /\
    within (of_int 0) (of_int 12) (texts_at (lit 3.6) added).*1 = (length l <=? 4)%nat.
Proof.
  intros Hn. eexists. split; [apply secondary_stats_run|].
  rewrite label_anchors.
  assert (E : (texts_at (lit 3.6)
                 (flat_map (stat_texts (F := float) "#F18F01" "#f5f5f5") (enumerate l))).*1
              = stat_anchors (length l)).
  { rewrite value_anchors.
    apply (map_enumerate_fst (fun i => (lit 5.8 + of_int (i * 2))%num : float)). }
  split; [|split; [|split]].
  - rewrite <- (length_fmap fst), E. unfold stat_anchors, range.
    rewrite !length_map, length_seq. reflexivity.
  - rewrite value_anchors. reflexivity.
  - rewrite E. apply stat_anchors_increasing, Hn.
  - rewrite E. apply stat_anchors_inside, Hn.
Qed.

Lemma stats_anchors_any_length_witness :
  length (stats ++ [("12", "Years"); ("7", "Stages")]) <= 1000 /\
  exists added : list (Artist float),
    secondary_stats (globals true ["assets"]) (stats ++ [("12", "Years"); ("7", "Stages")])
      blank_canvas
      = (inr tt, snd (on_figure (with_more added) blank_canvas)) /\
    length (texts_at (lit 3.6) added) = length (stats ++ [("12", "Years"); ("7", "Stages")]) /\
    (texts_at (lit 2.9) added).*1 = (texts_at (lit 3.6) added).*1 /\
    increasing (texts_at (lit 3.6) added).*1 = true /\
    within (of_int 0) (of_int 12) (texts_at (lit 3.6) added).*1
      = (length (stats ++ [("12", "Years"); ("7", "Stages")]) <=? 4)%nat.
Proof.
  assert (Hn : length (stats ++ [("12", "Years"); ("7", "Stages")]) <= 1000) by (cbn; lia).
  split; [exact Hn|].
  exact (stats_anchors_any_length true ["assets"]
           (stats ++ [("12", "Years"); ("7", "Stages")]) blank_canvas Hn).
Defined.

(** ** The fallback run and the raster file *)


